(** * Smart Health Surveillance: the scoring and aggregation core

    A shallow embedding of [my_analysis.py]: the per-report rule engine
    [score_and_infer], the per-location roll-up
    [aggregate_location_patterns] and the global verdict
    [overall_risk_from_reports], and the decision logic of the request
    handler [analyze], followed by the properties the specification states
    about them and further properties read off the code.

    Modelling choices.
    - A Python [float] is a primitive binary64 [float]; comparisons are the
      IEEE ones ([PrimFloat.ltb] and friends), so NaN and the infinities
      behave as in Python.
    - A Python [int] is a [Z].
    - Text is the [string] of its UTF-8 bytes.  The symptom keywords are
      ASCII and none of them can be produced by lower-casing a non-ASCII
      letter, so lower-casing A-Z is all that matters to the matching.
    - A report is the JSON object the docstring of [score_and_infer]
      describes: [location] and [symptoms] are text when present, each
      measurement is an arbitrary JSON value, which [_get_float] coerces.
    - [Counter] is an association list in first-insertion order, the order
      that [most_common] uses to break ties.
    - [defaultdict(Counter)] and the summary [dict] are [gmap]s. *)

From Stdlib Require Import ZArith List String Ascii Bool Floats.
From stdpp Require Import gmap strings list fin_maps sorting.

Set Warnings "-inexact-float,-clear-no-such-hyp".
Open Scope Z_scope.
Open Scope string_scope.
Open Scope list_scope.

(** ** Python values and builtins *)

(** What [report.get(key)] can yield for a measurement key: a JSON scalar,
    or an array or object ([POther]).  A missing key reads as [PNone]. *)
Inductive pyval : Type :=
| PNone
| PBool (b : bool)
| PInt (z : Z)
| PFloat (f : float)
| PStr (s : string)
| POther.

(** [float(z)] for an [int]: the nearest double, ties to even;
    [OverflowError] ([None]) when the result would not be finite. *)
Definition float_of_int (z : Z) : option float :=
  match binary_normalize prec emax z 0 false with
  | S754_infinity _ => None
  | sf => Some (SF2Prim sf)
  end.

(** [a / b] for two [int]s, [b] not zero: the correctly rounded quotient. *)
Definition int_as_spec (z : Z) : spec_float :=
  match z with
  | Z0 => S754_zero false
  | Zpos p => S754_finite false p 0
  | Zneg p => S754_finite true p 0
  end.

Definition true_div (a b : Z) : float :=
  SF2Prim (SFdiv prec emax (int_as_spec a) (int_as_spec b)).

(** [s.lower()] *)
Definition lower_ascii (c : ascii) : ascii :=
  let n := nat_of_ascii c in
  if ((65 <=? n)%nat && (n <=? 90)%nat)%bool then ascii_of_nat (n + 32) else c.

Fixpoint lower (s : string) : string :=
  match s with
  | EmptyString => EmptyString
  | String c t => String (lower_ascii c) (lower t)
  end.

(** [needle in hay] on text *)
Fixpoint contains (needle hay : string) : bool :=
  if String.prefix needle hay then true
  else match hay with
       | EmptyString => false
       | String _ t => contains needle t
       end.

(** [x in l] on a list of text *)
Definition mem (x : string) (l : list string) : bool := bool_decide (x ∈ l).

(** ** Constants *)

Module SAFE.
Definition pH_min : float := 6.5.
Definition pH_max : float := 8.5.
Definition turbidity_ideal : float := 1.0.
Definition turbidity_max : float := 5.0.
Definition ecoli : float := 0.0.
Definition coliforms : float := 0.0.
Definition hpc_max : float := 500.0.
Definition arsenic_max : float := 0.01.
Definition fluoride_max : float := 1.5.
Definition nitrate_max : float := 45.0.
Definition lead_max : float := 0.01.
End SAFE.

Definition SYMPTOM_KEYS : list string :=
  ["fever"; "diarrhea"; "vomit"; "vomiting"; "jaundice"; "abdominal pain";
   "stomach pain"; "nausea"].

(** ** Reports *)

(** The keys the core reads.  [report_time] is carried along by the caller
    and never read here. *)
Module Report.
Record t : Type := Make {
  location : option string;
  symptoms : option string;
  pH : pyval;
  turbidity : pyval;
  bacteria_count : pyval;
  coliforms : pyval;
  hpc : pyval;
  arsenic : pyval;
  fluoride : pyval;
  nitrate : pyval;
  lead : pyval
}.
End Report.

(** [v or d] on optional text: [None] and the empty text are falsy. *)
Definition or_text (v : option string) (d : string) : string :=
  match v with
  | Some s => if String.eqb s "" then d else s
  | None => d
  end.

(** The local variables [score_and_infer] reads off a report. *)
Record locals : Type := Locals {
  stext : string;
  loc : string;
  pH : float;
  turb : float;
  ecoli : float;
  coliforms : float;
  hpc : float;
  arsenic : float;
  fluoride : float;
  nitrate : float;
  lead : float
}.

(** The accumulators [score], [issues], [diseases]. *)
Record acc : Type := Acc {
  acc_score : Z;
  acc_issues : list string;
  acc_diseases : list string
}.

Record result : Type := Result {
  location : string;
  score : Z;
  risk_level : string;
  issues_found : list string;
  likely_diseases : list string
}.

Section Scorer.

(** [float(s)] on text is Python's own parser: [None] is [ValueError]. *)
Variable float_of_str : string -> option float.

Definition _get_float (v : pyval) (default : float) : float :=
  match v with
  | PNone => default
  | PStr s =>
      if (String.eqb s "" || String.eqb s "null")%bool then default
      else match float_of_str s with
           | Some f => f
           | None => default
           end
  | PBool b => if b then 1%float else 0%float
  | PInt z => match float_of_int z with
              | Some f => f
              | None => default
              end
  | PFloat f => f
  | POther => default
  end.

Definition read_locals (report : Report.t) : locals :=
  {| stext := lower (or_text (Report.symptoms report) "");
     loc := or_text (Report.location report) "Unknown";
     pH := _get_float (Report.pH report) 7.0;
     turb := _get_float (Report.turbidity report) 0.0;
     ecoli := _get_float (Report.bacteria_count report) 0.0;
     coliforms := _get_float (Report.coliforms report) 0.0;
     hpc := _get_float (Report.hpc report) 0.0;
     arsenic := _get_float (Report.arsenic report) 0.0;
     fluoride := _get_float (Report.fluoride report) 0.0;
     nitrate := _get_float (Report.nitrate report) 0.0;
     lead := _get_float (Report.lead report) 0.0 |}.


(** *** The rule engine, statement by statement *)

(** [score += n] *)
Definition bump (n : Z) (a : acc) : acc :=
  {| acc_score := acc_score a + n;
     acc_issues := acc_issues a;
     acc_diseases := acc_diseases a |}.

(** [issues.append(issue)] *)
Definition add_issue (issue : string) (a : acc) : acc :=
  {| acc_score := acc_score a;
     acc_issues := acc_issues a ++ [issue];
     acc_diseases := acc_diseases a |}.

(** [diseases.extend(ds)]; [append(d)] is [extend([d])] *)
Definition add_diseases (ds : list string) (a : acc) : acc :=
  {| acc_score := acc_score a;
     acc_issues := acc_issues a;
     acc_diseases := acc_diseases a ++ ds |}.

(** [if d not in diseases: diseases.append(d)] *)
Definition ensure_disease (d : string) (a : acc) : acc :=
  if mem d (acc_diseases a) then a else add_diseases [d] a.

(** The body of a threshold branch: score, one issue, some diseases. *)
Definition flag (n : Z) (issue : string) (ds : list string) (a : acc) : acc :=
  add_diseases ds (add_issue issue (bump n a)).

(** Symptom-derived risk. *)
Definition symptom_rules (l : locals) (a : acc) : acc :=
  let s := stext l in
  let a := if contains "fever" s then bump 2 a else a in
  let a := if contains "diarrhea" s then bump 3 a else a in
  let a := if (contains "vomit" s || contains "vomiting" s
               || contains "nausea" s)%bool then bump 2 a else a in
  let a := if contains "jaundice" s then bump 2 a else a in
  let a := if (contains "abdominal pain" s
               || contains "stomach pain" s)%bool then bump 1 a else a in
  a.

Definition pH_rule (l : locals) (a : acc) : acc :=
  if (PrimFloat.ltb (pH l) SAFE.pH_min
      || PrimFloat.ltb SAFE.pH_max (pH l))%bool
  then flag 2 "Unsafe pH" ["Metal leaching / gastritis / skin irritation"] a
  else a.

Definition turbidity_rule (l : locals) (a : acc) : acc :=
  if PrimFloat.ltb 30 (turb l)
  then flag 4 "Very high turbidity"
            ["Pathogens likely; chlorination failure"] a
  else if PrimFloat.ltb SAFE.turbidity_max (turb l)
  then flag 2 "High turbidity" ["Pathogens may survive; diarrhea risk"] a
  else if PrimFloat.ltb SAFE.turbidity_ideal (turb l)
  then add_issue "Turbidity above ideal" a
  else a.

Definition ecoli_rule (l : locals) (a : acc) : acc :=
  if PrimFloat.ltb 0 (ecoli l)
  then flag 5 "E. coli present" ["Diarrhea"; "Cholera"; "Typhoid"] a
  else a.

Definition coliforms_rule (l : locals) (a : acc) : acc :=
  if PrimFloat.ltb 0 (coliforms l)
  then flag 3 "Fecal contamination (coliforms)"
            ["Gastroenteritis"; "Hepatitis A"] a
  else a.

Definition hpc_rule (l : locals) (a : acc) : acc :=
  if PrimFloat.ltb SAFE.hpc_max (hpc l)
  then flag 2 "High HPC" ["Opportunistic infections"] a
  else a.

Definition arsenic_rule (l : locals) (a : acc) : acc :=
  if PrimFloat.ltb SAFE.arsenic_max (arsenic l)
  then flag 4 "Arsenic above safe limit" ["Arsenicosis / cancer risk"] a
  else a.

Definition fluoride_rule (l : locals) (a : acc) : acc :=
  if PrimFloat.ltb SAFE.fluoride_max (fluoride l)
  then flag 2 "High fluoride" ["Dental/Skeletal fluorosis"] a
  else a.

Definition nitrate_rule (l : locals) (a : acc) : acc :=
  if PrimFloat.ltb SAFE.nitrate_max (nitrate l)
  then flag 3 "High nitrate" ["Methemoglobinemia (Blue Baby)"] a
  else a.

Definition lead_rule (l : locals) (a : acc) : acc :=
  if PrimFloat.ltb SAFE.lead_max (lead l)
  then flag 4 "Lead above safe limit"
            ["Neurotoxicity / developmental issues"] a
  else a.

(** Water quality thresholds, in the order of the source. *)
Definition water_rules (l : locals) (a : acc) : acc :=
  lead_rule l (nitrate_rule l (fluoride_rule l (arsenic_rule l
    (hpc_rule l (coliforms_rule l (ecoli_rule l
      (turbidity_rule l (pH_rule l a)))))))).

(** Coupling of symptoms with water findings. *)
Definition coupling_rules (l : locals) (a : acc) : acc :=
  let a :=
    if (contains "diarrhea" (stext l)
        && (PrimFloat.ltb 0 (ecoli l) || PrimFloat.ltb 0 (coliforms l)
            || PrimFloat.ltb SAFE.turbidity_max (turb l)))%bool
    then ensure_disease "Gastroenteritis"
           (ensure_disease "Typhoid" (ensure_disease "Cholera" a))
    else a in
  let a :=
    if (contains "jaundice" (stext l)
        && (PrimFloat.ltb 0 (coliforms l) || PrimFloat.ltb 0 (ecoli l)))%bool
    then ensure_disease "Hepatitis A" a
    else a in
  a.

(** Risk buckets: 0-2 Low, 3-5 Medium, >= 6 High. *)
Definition risk_bucket (n : Z) : string :=
  if (6 <=? n)%Z then "High"
  else if (3 <=? n)%Z then "Medium"
  else "Low".

(** The de-duplication loop: [seen] is the set, the second component is
    [diseases_unique]. *)
Definition dedup_step (st : gset string * list string) (d : string)
  : gset string * list string :=
  if decide (d ∈ st.1) then st else ({[d]} ∪ st.1, st.2 ++ [d]).

Definition dedup (diseases : list string) : list string :=
  (fold_left dedup_step diseases (∅, [])).2.

Definition acc0 : acc :=
  {| acc_score := 0; acc_issues := []; acc_diseases := [] |}.

(** The accumulators when the risk bucket is chosen. *)
Definition run_rules (l : locals) : acc :=
  coupling_rules l (water_rules l (symptom_rules l acc0)).

Definition score_and_infer (report : Report.t) : result :=
  let l := read_locals report in
  let a := run_rules l in
  {| location := loc l;
     score := acc_score a;
     risk_level := risk_bucket (acc_score a);
     issues_found := acc_issues a;
     likely_diseases := dedup (acc_diseases a) |}.

End Scorer.

(** ** Counter *)

(** A [Counter] over text keys: the items in first-insertion order. *)
Abbreviation Counter := (list (string * nat)).

(** [c[k] += 1] *)
Fixpoint incr (k : string) (c : Counter) : Counter :=
  match c with
  | [] => [(k, 1%nat)]
  | (k', n) :: t =>
      if String.eqb k k' then (k', S n) :: t else (k', n) :: incr k t
  end.

(** [c[k]], zero for a key that was never counted *)
Fixpoint get (c : Counter) (k : string) : nat :=
  match c with
  | [] => 0%nat
  | (k', n) :: t => if String.eqb k k' then n else get t k
  end.

(** [Counter(l)] *)
Definition Counter_of (l : list string) : Counter :=
  fold_left (fun c k => incr k c) l [].

(** [sorted(items, key=itemgetter(1), reverse=True)]: a stable sort, so
    items of equal count keep their insertion order. *)
Fixpoint insert_desc (x : string * nat) (l : Counter) : Counter :=
  match l with
  | [] => [x]
  | y :: t => if (y.2 <=? x.2)%nat then x :: y :: t else y :: insert_desc x t
  end.

Definition sort_desc (c : Counter) : Counter := foldr insert_desc [] c.

(** [c.most_common(n)] *)
Definition most_common (n : nat) (c : Counter) : Counter :=
  take n (sort_desc c).

(** ** Location aggregator *)

(** An entry of [per_report]: [{**r, **result}]. *)
Record scored : Type := Scored {
  original : Report.t;
  derived : result
}.

Record LocationSummary : Type := Summary {
  symptom_trends : Counter;
  risk_counts : Counter;
  top_issues : list string;
  likely_diseases_top : list string
}.

(** The four [defaultdict(Counter)]s and [per_report]. *)
Record tallies : Type := Tallies {
  loc_symptoms : gmap string Counter;
  loc_diseases : gmap string Counter;
  loc_risk : gmap string Counter;
  loc_issues : gmap string Counter;
  per_report : list scored
}.

(** [m[loc][key] += 1] on a [defaultdict(Counter)] *)
Definition tally (loc key : string) (m : gmap string Counter)
  : gmap string Counter :=
  <[loc := incr key (m !!! loc)]> m.

Section Aggregator.

Variable float_of_str : string -> option float.

(** One iteration of the loop over [reports]. *)
Definition aggregate_step (st : tallies) (r : Report.t) : tallies :=
  let stext := lower (or_text (Report.symptoms r) "") in
  let loc := or_text (Report.location r) "Unknown" in
  let result := score_and_infer float_of_str r in
  {| loc_symptoms :=
       fold_left (fun m key => if contains key stext then tally loc key m else m)
                 SYMPTOM_KEYS (loc_symptoms st);
     loc_diseases :=
       fold_left (fun m d => tally loc d m) (likely_diseases result)
                 (loc_diseases st);
     loc_risk := tally loc (risk_level result) (loc_risk st);
     loc_issues :=
       fold_left (fun m iss => tally loc iss m) (issues_found result)
                 (loc_issues st);
     per_report := per_report st ++ [Scored r result] |}.

Definition tallies0 : tallies :=
  {| loc_symptoms := ∅; loc_diseases := ∅; loc_risk := ∅; loc_issues := ∅;
     per_report := [] |}.

Definition summarize (st : tallies) (loc : string) : LocationSummary :=
  {| symptom_trends := loc_symptoms st !!! loc;
     risk_counts := loc_risk st !!! loc;
     top_issues := (most_common 5 (loc_issues st !!! loc)).*1;
     likely_diseases_top := (most_common 5 (loc_diseases st !!! loc)).*1 |}.

(** [set([pr["location"] for pr in per_report] or ["Unknown"])] *)
Definition locations (prs : list scored) : gset string :=
  match prs with
  | [] => {["Unknown"]}
  | _ => list_to_set (map (fun pr => location (derived pr)) prs)
  end.

Definition aggregate_location_patterns (reports : list Report.t)
  : list scored * gmap string LocationSummary :=
  let st := fold_left aggregate_step reports tallies0 in
  (per_report st,
   set_to_map (fun loc => (loc, summarize st loc)) (locations (per_report st))).

End Aggregator.

(** ** Global verdict *)

Definition overall_risk_from_reports (per_report : list scored) : string :=
  match per_report with
  | [] => "No Data"
  | _ =>
      let counts :=
        Counter_of (map (fun r => risk_level (derived r)) per_report) in
      let total := Z.of_nat (length per_report) in
      if PrimFloat.leb 0.33 (true_div (Z.of_nat (get counts "High")) total)
      then "High"
      else if PrimFloat.leb 0.33
                (true_div (Z.of_nat (get counts "Medium")) total)
      then "Medium"
      else "Low"
  end.

(** ** The request handler *)

(** What [request.get_json(force=True)] yields: an array of report objects;
    a falsy value that is not an array ([null], [false], [0], the empty
    text, the empty object), which [or []] turns into the empty array; or
    any other value.  The timestamp loop only rewrites [report_time], which
    the core never reads. *)
Inductive body : Type :=
| BodyArray (reports : list Report.t)
| BodyFalsy
| BodyOther.

(** [sorted(l)] on text *)
Fixpoint insert_text (x : string) (l : list string) : list string :=
  match l with
  | [] => [x]
  | y :: t => if String.leb x y then x :: y :: t else y :: insert_text x t
  end.

Definition sorted_text (l : list string) : list string :=
  foldr insert_text [] l.

Definition severe_flags : list string :=
  ["E. coli present"; "Arsenic above safe limit"; "Lead above safe limit";
   "Fecal contamination (coliforms)"].

(** The test on one summary: at least two High reports, or else a severe
    issue among the top issues, compared in lower case. *)
Definition is_high_risk (summary : LocationSummary) : bool :=
  if (2 <=? get (risk_counts summary) "High")%nat then true
  else existsb (fun iss => mem iss (map lower (top_issues summary)))
               (map lower severe_flags).

Record payload : Type := Payload {
  total_reports : nat;
  overall_risk : string;
  payload_per_report : list scored;
  location_summary : gmap string LocationSummary;
  high_risk_locations : list string
}.

Inductive response : Type :=
| Ok200 (p : payload)
| Error400 (error : string).



Section Handler.

Variable float_of_str : string -> option float.

Definition analyze (b : body) : response :=
  match b with
  | BodyOther => Error400 "Expecting a JSON array of reports"
  | _ =>
      let data := match b with BodyArray l => l | _ => [] end in
      let '(per_report, location_summary) :=
        aggregate_location_patterns float_of_str data in
      let overall := overall_risk_from_reports per_report in
      let high_risk_locs :=
        (List.filter (fun kv => is_high_risk kv.2)
                     (map_to_list location_summary)).*1 in
      Ok200 {| total_reports := length per_report;
               overall_risk := overall;
               payload_per_report := per_report;
               location_summary := location_summary;
               high_risk_locations :=
                 sorted_text (elements (list_to_set high_risk_locs
                                         : gset string)) |}
  end.



End Handler.


(** * Vocabulary of the specification *)

(** ** Reports within the safe bounds *)

(** No symptom text: the key is absent, null, or the empty text. *)
Definition no_symptom_text (r : Report.t) : Prop :=
  Report.symptoms r = None \/ Report.symptoms r = Some "".

(** A measurement is missing, or its value satisfies [ok]. *)
Definition missing_or (float_of_str : string -> option float)
    (v : pyval) (default : float) (ok : float -> bool) : Prop :=
  v = PNone \/ ok (_get_float float_of_str v default) = true.

Definition within (lo hi x : float) : bool :=
  (PrimFloat.leb lo x && PrimFloat.leb x hi)%bool.
Definition at_most (hi x : float) : bool := PrimFloat.leb x hi.
Definition equal_to (c x : float) : bool := PrimFloat.eqb x c.

Record all_safe (float_of_str : string -> option float) (r : Report.t)
  : Prop := AllSafe {
  safe_pH : missing_or float_of_str (Report.pH r) 7.0 (within 6.5 8.5);
  safe_turbidity : missing_or float_of_str (Report.turbidity r) 0.0 (at_most 1.0);
  safe_bacteria_count :
    missing_or float_of_str (Report.bacteria_count r) 0.0 (equal_to 0);
  safe_coliforms : missing_or float_of_str (Report.coliforms r) 0.0 (equal_to 0);
  safe_hpc : missing_or float_of_str (Report.hpc r) 0.0 (at_most 500);
  safe_arsenic : missing_or float_of_str (Report.arsenic r) 0.0 (at_most 0.01);
  safe_fluoride : missing_or float_of_str (Report.fluoride r) 0.0 (at_most 1.5);
  safe_nitrate : missing_or float_of_str (Report.nitrate r) 0.0 (at_most 45.0);
  safe_lead : missing_or float_of_str (Report.lead r) 0.0 (at_most 0.01)
}.

(** ** The rule table of the specification

    The two tables of the scoring rules, in evaluation order: when a rule
    fires it adds its points, its issue (if it has one) and its disease
    hints.  The three turbidity rows are the branches of one
    [if]/[elif] chain, so each row carries the failure of the rows above. *)

Record rule : Type := Rule {
  fires : locals -> bool;
  points : Z;
  issue : list string;
  hints : list string
}.

Definition symptom_table : list rule :=
  [ Rule (fun l => contains "fever" (stext l)) 2 [] [];
    Rule (fun l => contains "diarrhea" (stext l)) 3 [] [];
    Rule (fun l => contains "vomit" (stext l) || contains "vomiting" (stext l)
                   || contains "nausea" (stext l))%bool 2 [] [];
    Rule (fun l => contains "jaundice" (stext l)) 2 [] [];
    Rule (fun l => contains "abdominal pain" (stext l)
                   || contains "stomach pain" (stext l))%bool 1 [] [] ].

Definition pH_table : list rule :=
  [ Rule (fun l => PrimFloat.ltb (pH l) 6.5 || PrimFloat.ltb 8.5 (pH l))%bool
         2 ["Unsafe pH"] ["Metal leaching / gastritis / skin irritation"] ].

Definition turbidity_table : list rule :=
  [ Rule (fun l => PrimFloat.ltb 30 (turb l))
         4 ["Very high turbidity"] ["Pathogens likely; chlorination failure"];
    Rule (fun l => negb (PrimFloat.ltb 30 (turb l))
                   && PrimFloat.ltb 5.0 (turb l))%bool
         2 ["High turbidity"] ["Pathogens may survive; diarrhea risk"];
    Rule (fun l => negb (PrimFloat.ltb 30 (turb l))
                   && negb (PrimFloat.ltb 5.0 (turb l))
                   && PrimFloat.ltb 1.0 (turb l))%bool
         0 ["Turbidity above ideal"] [] ].

Definition contaminant_table : list rule :=
  [ Rule (fun l => PrimFloat.ltb 0 (ecoli l))
         5 ["E. coli present"] ["Diarrhea"; "Cholera"; "Typhoid"];
    Rule (fun l => PrimFloat.ltb 0 (coliforms l))
         3 ["Fecal contamination (coliforms)"] ["Gastroenteritis"; "Hepatitis A"];
    Rule (fun l => PrimFloat.ltb 500 (hpc l))
         2 ["High HPC"] ["Opportunistic infections"];
    Rule (fun l => PrimFloat.ltb 0.01 (arsenic l))
         4 ["Arsenic above safe limit"] ["Arsenicosis / cancer risk"];
    Rule (fun l => PrimFloat.ltb 1.5 (fluoride l))
         2 ["High fluoride"] ["Dental/Skeletal fluorosis"];
    Rule (fun l => PrimFloat.ltb 45.0 (nitrate l))
         3 ["High nitrate"] ["Methemoglobinemia (Blue Baby)"];
    Rule (fun l => PrimFloat.ltb 0.01 (lead l))
         4 ["Lead above safe limit"] ["Neurotoxicity / developmental issues"] ].

Definition water_table : list rule :=
  pH_table ++ turbidity_table ++ contaminant_table.

Definition rule_table : list rule := symptom_table ++ water_table.

(** The rules a report triggers, and what they add up to. *)
Definition triggered (l : locals) (table : list rule) : list rule :=
  List.filter (fun rl => fires rl l) table.

Definition total_points (rs : list rule) : Z :=
  foldr (fun rl n => points rl + n) 0 rs.

Definition all_issues (rs : list rule) : list string := flat_map issue rs.
Definition all_hints (rs : list rule) : list string := flat_map hints rs.

(** What a list of fired rules adds to the accumulators. *)
Definition effect (rs : list rule) (a : acc) : acc :=
  {| acc_score := acc_score a + total_points rs;
     acc_issues := acc_issues a ++ all_issues rs;
     acc_diseases := acc_diseases a ++ all_hints rs |}.

(** The second report satisfies every rule condition the first does. *)
Definition triggers_superset (l1 l2 : locals) : Prop :=
  forall rl, rl ∈ rule_table -> fires rl l1 = true -> fires rl l2 = true.

(** The same with the turbidity checks read as three bare comparisons,
    not as the branches of the chain. *)
Definition bare_turbidity_table : list rule :=
  [ Rule (fun l => PrimFloat.ltb 30 (turb l))
         4 ["Very high turbidity"] ["Pathogens likely; chlorination failure"];
    Rule (fun l => PrimFloat.ltb 5.0 (turb l))
         2 ["High turbidity"] ["Pathogens may survive; diarrhea risk"];
    Rule (fun l => PrimFloat.ltb 1.0 (turb l))
         0 ["Turbidity above ideal"] [] ].

Definition bare_conditions : list rule :=
  symptom_table ++ pH_table ++ bare_turbidity_table ++ contaminant_table.

Definition conditions_superset (l1 l2 : locals) : Prop :=
  forall rl, rl ∈ bare_conditions -> fires rl l1 = true -> fires rl l2 = true.

(** ** Disease lists *)

(** The [diseases] list as the rules leave it, before de-duplication. *)
Definition diseases_emitted (float_of_str : string -> option float)
    (r : Report.t) : list string :=
  acc_diseases (run_rules (read_locals float_of_str r)).

(** The accumulators after the threshold rules, before the coupling rules. *)
Definition before_coupling (float_of_str : string -> option float)
    (r : Report.t) : acc :=
  let l := read_locals float_of_str r in
  water_rules l (symptom_rules l acc0).

(** [a'] is [a] with the same score and issues, and with diseases appended
    that [a] did not have, none of them twice. *)
Definition appends_fresh (a a' : acc) : Prop :=
  acc_score a' = acc_score a /\
  acc_issues a' = acc_issues a /\
  exists extra,
    acc_diseases a' = acc_diseases a ++ extra /\
    NoDup extra /\
    (forall d, d ∈ extra -> d ∉ acc_diseases a).

(** The diseases the coupling rules can add. *)
Definition coupled_diseases : list string :=
  ["Cholera"; "Typhoid"; "Gastroenteritis"; "Hepatitis A"].

(** [out] lists the distinct elements of [l] in the order of their first
    occurrences: no repeats, the same elements, and what precedes an
    element in [out] is what occurs in [l] before its first occurrence. *)
Definition first_occurrence_order (l out : list string) : Prop :=
  NoDup out /\
  (forall d, d ∈ out <-> d ∈ l) /\
  (forall pre d post, out = pre ++ d :: post ->
     exists pre' post', l = pre' ++ d :: post' /\ (d ∉ pre') /\
                        (forall x, x ∈ pre <-> x ∈ pre')).

(** ** Turbidity *)

(** The report with its [turbidity] key set to [v]. *)
Definition with_turbidity (v : pyval) (r : Report.t) : Report.t :=
  {| Report.location := Report.location r;
     Report.symptoms := Report.symptoms r;
     Report.pH := Report.pH r;
     Report.turbidity := v;
     Report.bacteria_count := Report.bacteria_count r;
     Report.coliforms := Report.coliforms r;
     Report.hpc := Report.hpc r;
     Report.arsenic := Report.arsenic r;
     Report.fluoride := Report.fluoride r;
     Report.nitrate := Report.nitrate r;
     Report.lead := Report.lead r |}.

Definition turbidity_issues : list string :=
  ["Very high turbidity"; "High turbidity"; "Turbidity above ideal"].

Definition turbidity_hints : list string :=
  ["Pathogens likely; chlorination failure";
   "Pathogens may survive; diarrhea risk"].

(** What the turbidity checks add at turbidity [t], the first matching
    branch winning: above 30, else above 5, else above 1, else nothing. *)
Definition turbidity_points_of (t : float) : Z :=
  if PrimFloat.ltb 30 t then 4
  else if PrimFloat.ltb 5.0 t then 2
  else 0.

Definition turbidity_issue_of (t : float) : list string :=
  if PrimFloat.ltb 30 t then ["Very high turbidity"]
  else if PrimFloat.ltb 5.0 t then ["High turbidity"]
  else if PrimFloat.ltb 1.0 t then ["Turbidity above ideal"]
  else [].

Definition turbidity_hint_of (t : float) : list string :=
  if PrimFloat.ltb 30 t then ["Pathogens likely; chlorination failure"]
  else if PrimFloat.ltb 5.0 t then ["Pathogens may survive; diarrhea risk"]
  else [].

(** ** Fractions of the global verdict *)

Definition risk_levels (prs : list scored) : list string :=
  map (fun r => risk_level (derived r)) prs.

(** How often [x] occurs in [l]. *)
Definition occurrences (x : string) (l : list string) : nat :=
  count_occ string_dec l x.

(** The fraction of reports at [level] is at least 0.33. *)
Definition clears_threshold (prs : list scored) (level : string) : bool :=
  PrimFloat.leb 0.33
    (true_div (Z.of_nat (occurrences level (risk_levels prs)))
              (Z.of_nat (length prs))).

(** ** Ranking of the location summaries *)

(** Index of the first occurrence of [x] in [l]; [length l] if there is none. *)
Fixpoint first_index (x : string) (l : list string) : nat :=
  match l with
  | [] => 0%nat
  | y :: t => if String.eqb x y then 0%nat else S (first_index x t)
  end.

(** [k1] ranks before [k2]: it is more frequent in [stream], or as frequent
    and encountered first. *)
Definition outranks (stream : list string) (k1 k2 : string) : Prop :=
  (occurrences k2 stream < occurrences k1 stream)%nat \/
  (occurrences k1 stream = occurrences k2 stream /\
   (first_index k1 stream < first_index k2 stream)%nat).

(** The order of [sort_desc] on items: the larger count first; among equal
    counts, the order [tie]. *)
Definition ranks_before (tie : relation (string * nat))
    (x y : string * nat) : Prop :=
  (y.2 < x.2)%nat \/ (x.2 = y.2 /\ tie x y).

(** [top] is the top five of the values of [stream]: the first five (all,
    if there are fewer) of the distinct values in ranking order. *)
Definition top_five_of (stream top : list string) : Prop :=
  (length top <= 5)%nat /\
  exists rest,
    NoDup (top ++ rest) /\
    (forall k, k ∈ top ++ rest <-> k ∈ stream) /\
    StronglySorted (outranks stream) (top ++ rest) /\
    (rest <> [] -> length top = 5%nat).

(** The issues, and the diseases, tallied for a location, in the order the
    loop meets them. *)
Definition at_location (float_of_str : string -> option float)
    (loc : string) (reports : list Report.t) : list result :=
  List.filter (fun res => String.eqb (location res) loc)
              (map (score_and_infer float_of_str) reports).

Definition issue_stream (float_of_str : string -> option float)
    (loc : string) (reports : list Report.t) : list string :=
  flat_map issues_found (at_location float_of_str loc reports).

Definition disease_stream (float_of_str : string -> option float)
    (loc : string) (reports : list Report.t) : list string :=
  flat_map likely_diseases (at_location float_of_str loc reports).

(** ** Further vocabulary for the scorer *)

(** The report with its [symptoms] key set to [v]. *)
Definition with_symptoms (v : option string) (r : Report.t) : Report.t :=
  {| Report.location := Report.location r;
     Report.symptoms := v;
     Report.pH := Report.pH r;
     Report.turbidity := Report.turbidity r;
     Report.bacteria_count := Report.bacteria_count r;
     Report.coliforms := Report.coliforms r;
     Report.hpc := Report.hpc r;
     Report.arsenic := Report.arsenic r;
     Report.fluoride := Report.fluoride r;
     Report.nitrate := Report.nitrate r;
     Report.lead := Report.lead r |}.

(** Every reading of the report is NaN. *)
Definition readings_all_nan (l : locals) : Prop :=
  PrimFloat.is_nan (pH l) = true /\
  PrimFloat.is_nan (turb l) = true /\
  PrimFloat.is_nan (ecoli l) = true /\
  PrimFloat.is_nan (coliforms l) = true /\
  PrimFloat.is_nan (hpc l) = true /\
  PrimFloat.is_nan (arsenic l) = true /\
  PrimFloat.is_nan (fluoride l) = true /\
  PrimFloat.is_nan (nitrate l) = true /\
  PrimFloat.is_nan (lead l) = true.


(** A reading is at most another when the IEEE comparison [<=] holds.  A
    NaN is in no order with anything; as the first reading it fails no
    threshold, and is admitted. *)
Definition reading_at_most (x1 x2 : float) : Prop :=
  PrimFloat.leb x1 x2 = true \/ PrimFloat.is_nan x1 = true.

(** The same text and the same pH, and every other reading of the first
    [<=] the corresponding reading of the second (or NaN in the first).  A
    NaN in the second report is [<=]-comparable with nothing, so a pair
    such as 40 against NaN is not in this relation. *)
Definition readings_at_most (l1 l2 : locals) : Prop :=
  stext l1 = stext l2 /\ pH l1 = pH l2 /\
  reading_at_most (turb l1) (turb l2) /\
  reading_at_most (ecoli l1) (ecoli l2) /\
  reading_at_most (coliforms l1) (coliforms l2) /\
  reading_at_most (hpc l1) (hpc l2) /\
  reading_at_most (arsenic l1) (arsenic l2) /\
  reading_at_most (fluoride l1) (fluoride l2) /\
  reading_at_most (nitrate l1) (nitrate l2) /\
  reading_at_most (lead l1) (lead l2).

(** ** Further vocabulary for the aggregator *)

(** The location a report is filed under, and its text as matched. *)
Definition report_location (r : Report.t) : string :=
  or_text (Report.location r) "Unknown".

Definition report_text (r : Report.t) : string :=
  lower (or_text (Report.symptoms r) "").

(** The reports filed under [loc], in order. *)
Definition reports_at (loc : string) (reports : list Report.t)
  : list Report.t :=
  List.filter (fun r => String.eqb (report_location r) loc) reports.

(** How many reports at [loc] have [key] in their text. *)
Definition symptom_hits (key loc : string) (reports : list Report.t) : nat :=
  length (List.filter (fun r => contains key (report_text r))
                      (reports_at loc reports)).

(** The keywords a report counts for. *)
Definition symptom_keys_of (r : Report.t) : list string :=
  List.filter (fun key => contains key (report_text r)) SYMPTOM_KEYS.

(** The risk levels of the reports at [loc], in order. *)
Definition risk_levels_at (float_of_str : string -> option float)
    (loc : string) (reports : list Report.t) : list string :=
  map (fun r => risk_level (score_and_infer float_of_str r))
      (reports_at loc reports).

(** The entry of [per_report] for a report. *)
Definition scored_of (float_of_str : string -> option float)
    (r : Report.t) : scored :=
  Scored r (score_and_infer float_of_str r).

Definition empty_summary : LocationSummary :=
  {| symptom_trends := []; risk_counts := []; top_issues := [];
     likely_diseases_top := [] |}.




(** * Example reports *)

(** A text parser that accepts nothing: numeric text reads as the default. *)
Definition no_parse : string -> option float := fun _ => None.

(** The report with only a location and a symptom text. *)
Definition symptoms_only (where_ : string) (text : string) : Report.t :=
  Report.Make (Some where_) (Some text)
              PNone PNone PNone PNone PNone PNone PNone PNone PNone.

(** Every measurement on its safe bound, as a float, an int or text. *)
Definition safe_report : Report.t :=
  Report.Make (Some "Well 3") None (PFloat 8.5) (PInt 1) (PInt 0) PNone
              (PInt 500) (PFloat 0.01) (PFloat 1.5) (PStr "null") (PStr "n/a").

Definition fever_report : Report.t := symptoms_only "A" "Fever".
Definition diarrhea_report : Report.t := symptoms_only "A" "diarrhea".
Definition fever_diarrhea_report : Report.t :=
  symptoms_only "A" "Fever, then diarrhea".
Definition three_symptoms_report : Report.t :=
  symptoms_only "A" "fever, jaundice and nausea".
Definition quiet_report : Report.t := symptoms_only "A" "".

(** The coupling example of the specification. *)
Definition diarrhea_ecoli_report : Report.t :=
  Report.Make (Some "A") (Some "severe diarrhea and fever")
              PNone PNone (PInt 5) PNone PNone PNone PNone PNone PNone.

Definition turbid_report : Report.t :=
  Report.Make (Some "A") (Some "Diarrhea") (PFloat 9) (PInt 40) PNone (PInt 2)
              PNone PNone PNone PNone PNone.

(** Six failed thresholds at once. *)
Definition busy_report : Report.t :=
  Report.Make (Some "A") None (PFloat 9) (PFloat 7) (PInt 1) (PInt 1)
              (PInt 600) (PInt 1) PNone PNone PNone.

Definition busy_reports : list Report.t :=
  [turbid_report; busy_report; busy_report].

Definition busy_summary : LocationSummary :=
  {| symptom_trends := [("diarrhea", 1%nat)];
     risk_counts := [("High", 3%nat)];
     top_issues :=
       ["Unsafe pH"; "Fecal contamination (coliforms)"; "High turbidity";
        "E. coli present"; "High HPC"];
     likely_diseases_top :=
       ["Metal leaching / gastritis / skin irritation"; "Gastroenteritis";
        "Hepatitis A"; "Cholera"; "Typhoid"] |}.

(** One report at High, one at Medium, one at Low. *)
Definition high_medium_low : list scored :=
  (aggregate_location_patterns no_parse
     [three_symptoms_report; diarrhea_report; quiet_report]).1.

(** Every rule condition of the first holds of the second, as a test. *)
Definition triggers_superset_b (l1 l2 : locals) : bool :=
  forallb (fun rl => implb (fires rl l1) (fires rl l2)) rule_table.

(** Every symptom and every threshold at once. *)
Definition worst_report : Report.t :=
  Report.Make (Some "A")
    (Some "Fever, diarrhea, vomiting, jaundice and stomach pain")
    (PFloat 3) (PInt 31) (PInt 1) (PInt 1) (PInt 501) (PInt 1) (PInt 2)
    (PInt 46) (PInt 1).

(** A parser that reads the text "nan" and nothing else. *)
Definition nan_parse : string -> option float :=
  fun s => if String.eqb s "nan" then Some PrimFloat.nan else None.

Definition nan_report : Report.t :=
  Report.Make (Some "A") (Some "fever") (PStr "nan") (PStr "nan") (PStr "nan")
              (PStr "nan") (PStr "nan") (PStr "nan") (PStr "nan") (PStr "nan")
              (PStr "nan").


(** Four locations: "A" with three High reports, "B" with a mild one, two
    High reports without a location, and "0" with lead only. *)
Definition mixed_reports : list Report.t :=
  busy_reports
  ++ [symptoms_only "B" "fever";
      symptoms_only "" "fever, jaundice, nausea";
      symptoms_only "" "fever, jaundice, nausea";
      Report.Make (Some "0") None PNone PNone PNone PNone PNone PNone PNone
                  PNone (PInt 1)].


(** Six issues, the lead finding last. *)
Definition lead_sixth_report : Report.t :=
  Report.Make (Some "C") None (PFloat 9) (PFloat 7) PNone PNone (PInt 600)
              PNone (PInt 2) (PInt 50) (PInt 1).

(** [busy_report] with clearer water. *)
Definition clearer_report : Report.t :=
  Report.Make (Some "A") None (PFloat 9) (PFloat 0.5) (PInt 0) (PInt 1)
              (PInt 400) (PFloat 0.001) PNone PNone PNone.

(** [clearer_report] with an unreadable nitrate value. *)
Definition clearer_nan_report : Report.t :=
  Report.Make (Some "A") None (PFloat 9) (PFloat 0.5) (PInt 0) (PInt 1)
              (PInt 400) (PFloat 0.001) PNone (PStr "nan") PNone.

(** What the handler answers for [mixed_reports]. *)
Definition mixed_payload : payload :=
  match analyze no_parse (BodyArray mixed_reports) with
  | Ok200 p => p
  | Error400 _ => Payload 0 "" [] ∅ []
  end.


(** * Properties *)

(** ** Float comparisons *)

Module FloatFacts.

Lemma SFcompare_antisym (x y : spec_float) :
  SFcompare y x = CompOpp <$> SFcompare x y.
Proof.
  destruct x as [sx|sx| |sx mx ex], y as [sy|sy| |sy my ey]; simpl;
    try reflexivity;
    try (destruct sx; reflexivity);
    try (destruct sy; reflexivity);
    try (destruct sx, sy; reflexivity).
  destruct sx, sy; simpl; try reflexivity;
    rewrite (Z.compare_antisym ex ey); destruct (ex ?= ey)%Z; simpl;
    try reflexivity;
    change (Pos.compare_cont Eq my mx) with (my ?= mx)%positive;
    change (Pos.compare_cont Eq mx my) with (mx ?= my)%positive;
    rewrite (Pos.compare_antisym mx my);
    destruct (mx ?= my)%positive; reflexivity.
Qed.

(** [x <= y] rules out [y < x]. *)
Lemma leb_not_gtb (x y : float) :
  PrimFloat.leb x y = true -> PrimFloat.ltb y x = false.
Proof.
  rewrite FloatAxioms.leb_spec, FloatAxioms.ltb_spec. unfold SFleb, SFltb.
  rewrite (SFcompare_antisym (Prim2SF x)). destruct (SFcompare _ _) as [[]|]; simpl;
    congruence.
Qed.

(** [x == y] rules out [y < x] and [x < y]. *)
Lemma eqb_not_ltb (x y : float) :
  PrimFloat.eqb x y = true ->
  PrimFloat.ltb x y = false /\ PrimFloat.ltb y x = false.
Proof.
  rewrite FloatAxioms.eqb_spec, !FloatAxioms.ltb_spec. unfold SFeqb, SFltb.
  rewrite (SFcompare_antisym (Prim2SF x)).
  destruct (SFcompare _ _) as [[]|]; simpl; split; congruence.
Qed.

(** [x > y] and [x <= y] exclude each other. *)
Lemma ltb_not_geb (x y : float) :
  PrimFloat.ltb x y = true -> PrimFloat.leb y x = false.
Proof.
  rewrite FloatAxioms.leb_spec, FloatAxioms.ltb_spec. unfold SFleb, SFltb.
  rewrite (SFcompare_antisym (Prim2SF x)).
  destruct (SFcompare _ _) as [[]|]; simpl; congruence.
Qed.

Ltac cmp_cases :=
  repeat match goal with
  | |- context [(?a ?= ?b)%Z] =>
      destruct (Z.compare_spec a b); simpl; try subst
  | |- context [Pos.compare_cont Eq ?a ?b] =>
      change (Pos.compare_cont Eq a b) with (a ?= b)%positive;
      destruct (Pos.compare_spec a b); simpl; try subst
  end.

Lemma SF_lt_le_trans (a x b : spec_float) :
  SFltb a x = true -> SFleb x b = true -> SFltb a b = true.
Proof.
  unfold SFltb, SFleb.
  destruct a as [sa|sa| |sa ma ea], x as [sx|sx| |sx mx ex],
    b as [sb|sb| |sb mb eb]; simpl;
    try destruct sa; try destruct sx; try destruct sb; simpl;
    try discriminate; try reflexivity;
    cmp_cases; try discriminate; try reflexivity; intros; lia.
Qed.

(** [a < x] and [x <= b] give [a < b]. *)
Lemma ltb_leb_trans (a x b : float) :
  PrimFloat.ltb a x = true -> PrimFloat.leb x b = true ->
  PrimFloat.ltb a b = true.
Proof.
  rewrite !FloatAxioms.ltb_spec, FloatAxioms.leb_spec.
  apply SF_lt_le_trans.
Qed.

End FloatFacts.

(** ** Text matching *)

Section Text.

Lemma append_cons (a : ascii) (s t : string) :
  (String a s ++ t)%string = String a (s ++ t)%string.
Proof. reflexivity. Qed.

Lemma prefix_spec (needle hay : string) :
  String.prefix needle hay = true <->
  exists post, hay = (needle ++ post)%string.
Proof.
  revert hay. induction needle as [|a needle IH]; intros hay.
  - split; [intros _; exists hay; reflexivity | destruct hay; reflexivity].
  - destruct hay as [|b hay]; simpl.
    + split; [discriminate | intros [post H]; discriminate].
    + destruct (ascii_dec a b) as [->|Hne].
      * rewrite IH. split; intros [post H]; exists post;
          rewrite append_cons in *; congruence.
      * split; [discriminate|]. intros [post H].
        rewrite append_cons in H. congruence.
Qed.

Lemma contains_unfold (needle hay : string) :
  contains needle hay
  = if String.prefix needle hay then true
    else match hay with
         | EmptyString => false
         | String _ t => contains needle t
         end.
Proof. destruct hay; reflexivity. Qed.

(** [contains] is the substring test. *)
Lemma contains_spec (needle hay : string) :
  contains needle hay = true <->
  exists pre post, hay = (pre ++ needle ++ post)%string.
Proof.
  induction hay as [|c hay IH]; rewrite contains_unfold.
  - destruct (String.prefix needle "") eqn:E.
    + apply prefix_spec in E as [post E]. split; [|reflexivity].
      intros _. exists "", post. exact E.
    + split; [discriminate|]. intros (pre & post & H).
      destruct pre; [|discriminate].
      assert (String.prefix needle "" = true) as E'
        by (apply prefix_spec; exists post; exact H).
      congruence.
  - destruct (String.prefix needle (String c hay)) eqn:E.
    + apply prefix_spec in E as [post E]. split; [|reflexivity].
      intros _. exists "", post. exact E.
    + rewrite IH. split.
      * intros (pre & post & ->). exists (String c pre), post. reflexivity.
      * intros (pre & post & H). destruct pre as [|c' pre].
        -- assert (String.prefix needle (String c hay) = true) as E'
             by (apply prefix_spec; exists post; exact H).
           congruence.
        -- rewrite append_cons in H. injection H as -> ->.
           exists pre, post. reflexivity.
Qed.

Example lower_example : lower "Severe DIARRHEA (3 days)" = "severe diarrhea (3 days)".
Proof. reflexivity. Qed.

End Text.

(** ** Reports within the safe bounds *)

Section SafeReports.

Variable float_of_str : string -> option float.

(** A missing measurement reads as its default, which is itself safe. *)
Lemma missing_or_ok v default ok :
  ok default = true ->
  missing_or float_of_str v default ok ->
  ok (_get_float float_of_str v default) = true.
Proof. intros Hd [-> | H]; [exact Hd | exact H]. Qed.

Lemma no_symptom_text_stext r :
  no_symptom_text r -> stext (read_locals float_of_str r) = "".
Proof. intros [H | H]; simpl; rewrite H; reflexivity. Qed.

Lemma at_most_not_above hi x :
  at_most hi x = true -> PrimFloat.ltb hi x = false.
Proof. apply FloatFacts.leb_not_gtb. Qed.

Lemma within_not_outside lo hi x :
  within lo hi x = true ->
  (PrimFloat.ltb x lo || PrimFloat.ltb hi x)%bool = false.
Proof.
  unfold within. intros [H1 H2]%andb_true_iff.
  rewrite (FloatFacts.leb_not_gtb _ _ H1), (FloatFacts.leb_not_gtb _ _ H2).
  reflexivity.
Qed.

Lemma equal_to_not_above c x :
  equal_to c x = true -> PrimFloat.ltb c x = false.
Proof. intros H. apply (FloatFacts.eqb_not_ltb _ _ H). Qed.

(** Below a smaller bound, hence not above a larger one. *)
Lemma at_most_not_above_larger hi hi' x :
  PrimFloat.ltb hi' hi = false ->
  at_most hi x = true -> PrimFloat.ltb hi' x = false.
Proof.
  intros Hlt Hx. destruct (PrimFloat.ltb hi' x) eqn:E; [|reflexivity].
  rewrite (FloatFacts.ltb_leb_trans _ _ _ E Hx) in Hlt. discriminate.
Qed.

Lemma pH_rule_safe l a :
  within 6.5 8.5 (pH l) = true -> pH_rule l a = a.
Proof.
  intros H. unfold pH_rule, SAFE.pH_min, SAFE.pH_max.
  rewrite (within_not_outside _ _ _ H). reflexivity.
Qed.

Lemma turbidity_rule_safe l a :
  at_most 1.0 (turb l) = true -> turbidity_rule l a = a.
Proof.
  intros H. unfold turbidity_rule, SAFE.turbidity_max, SAFE.turbidity_ideal.
  rewrite (at_most_not_above_larger 1 30 _ eq_refl H),
    (at_most_not_above_larger 1 5 _ eq_refl H), (at_most_not_above _ _ H).
  reflexivity.
Qed.

Lemma ecoli_rule_safe l a :
  equal_to 0 (ecoli l) = true -> ecoli_rule l a = a.
Proof.
  intros H. unfold ecoli_rule. rewrite (equal_to_not_above _ _ H).
  reflexivity.
Qed.

Lemma coliforms_rule_safe l a :
  equal_to 0 (coliforms l) = true -> coliforms_rule l a = a.
Proof.
  intros H. unfold coliforms_rule. rewrite (equal_to_not_above _ _ H).
  reflexivity.
Qed.

Lemma hpc_rule_safe l a : at_most 500 (hpc l) = true -> hpc_rule l a = a.
Proof.
  intros H. unfold hpc_rule, SAFE.hpc_max.
  rewrite (at_most_not_above _ _ H). reflexivity.
Qed.

Lemma arsenic_rule_safe l a :
  at_most 0.01 (arsenic l) = true -> arsenic_rule l a = a.
Proof.
  intros H. unfold arsenic_rule, SAFE.arsenic_max.
  rewrite (at_most_not_above _ _ H). reflexivity.
Qed.

Lemma fluoride_rule_safe l a :
  at_most 1.5 (fluoride l) = true -> fluoride_rule l a = a.
Proof.
  intros H. unfold fluoride_rule, SAFE.fluoride_max.
  rewrite (at_most_not_above _ _ H). reflexivity.
Qed.

Lemma nitrate_rule_safe l a :
  at_most 45.0 (nitrate l) = true -> nitrate_rule l a = a.
Proof.
  intros H. unfold nitrate_rule, SAFE.nitrate_max.
  rewrite (at_most_not_above _ _ H). reflexivity.
Qed.

Lemma lead_rule_safe l a :
  at_most 0.01 (lead l) = true -> lead_rule l a = a.
Proof.
  intros H. unfold lead_rule, SAFE.lead_max.
  rewrite (at_most_not_above _ _ H). reflexivity.
Qed.

(** No water rule fires on safe measurements. *)
Lemma water_rules_all_safe r a :
  all_safe float_of_str r ->
  water_rules (read_locals float_of_str r) a = a.
Proof.
  intros [HpH Hturb Hecoli Hcol Hhpc Has Hfl Hni Hle].
  apply missing_or_ok in HpH, Hturb, Hecoli, Hcol, Hhpc, Has, Hfl, Hni, Hle;
    try reflexivity.
  unfold water_rules.
  rewrite pH_rule_safe, turbidity_rule_safe, ecoli_rule_safe,
    coliforms_rule_safe, hpc_rule_safe, arsenic_rule_safe,
    fluoride_rule_safe, nitrate_rule_safe, lead_rule_safe by assumption.
  reflexivity.
Qed.

(** Without symptom text neither the symptom rules nor the coupling
    rules fire. *)
Lemma symptom_rules_no_text l a : stext l = "" -> symptom_rules l a = a.
Proof. intros H. unfold symptom_rules. rewrite H. reflexivity. Qed.

Lemma coupling_rules_no_text l a : stext l = "" -> coupling_rules l a = a.
Proof. intros H. unfold coupling_rules. rewrite H. reflexivity. Qed.

(** C1. A report with no symptom text whose measurements are each missing
    or within the safe bound (pH in [6.5, 8.5], turbidity <= 1.0,
    bacteria_count = 0, coliforms = 0, hpc <= 500, arsenic <= 0.01,
    fluoride <= 1.5, nitrate <= 45.0, lead <= 0.01) gets score 0, risk
    level "Low", no issue and no disease. *)
Theorem safe_report_scores_zero (r : Report.t) :
  no_symptom_text r ->
  all_safe float_of_str r ->
  let res := score_and_infer float_of_str r in
  score res = 0 /\ risk_level res = "Low" /\
  issues_found res = [] /\ likely_diseases res = [].
Proof.
  intros Hs Hw res. subst res. unfold score_and_infer, run_rules.
  apply no_symptom_text_stext in Hs.
  rewrite (symptom_rules_no_text _ _ Hs), (water_rules_all_safe _ _ Hw),
    (coupling_rules_no_text _ _ Hs).
  repeat split.
Qed.

End SafeReports.


(** ** The rules as a table *)

Section RuleTable.

Lemma effect_nil a : effect [] a = a.
Proof.
  destruct a as [n iss ds]. unfold effect; simpl.
  rewrite Z.add_0_r, !app_nil_r. reflexivity.
Qed.

Lemma total_points_app rs1 rs2 :
  total_points (rs1 ++ rs2) = total_points rs1 + total_points rs2.
Proof. induction rs1 as [|rl rs1 IH]; simpl; [reflexivity | lia]. Qed.

Lemma effect_app rs1 rs2 a : effect rs2 (effect rs1 a) = effect (rs1 ++ rs2) a.
Proof.
  unfold effect, all_issues, all_hints; simpl.
  rewrite total_points_app, !flat_map_app, !app_assoc, Z.add_assoc.
  reflexivity.
Qed.

Lemma triggered_app l t1 t2 :
  triggered l (t1 ++ t2) = triggered l t1 ++ triggered l t2.
Proof. apply List.filter_app. Qed.

(** A fired threshold branch is the effect of its row. *)
Lemma flag_effect n i ds f a :
  flag n i ds a = effect [Rule f n [i] ds] a.
Proof.
  unfold flag, effect, add_diseases, add_issue, bump; simpl.
  rewrite Z.add_0_r, app_nil_r. reflexivity.
Qed.

Lemma bump_effect n f a : bump n a = effect [Rule f n [] []] a.
Proof.
  unfold effect, bump; simpl. rewrite Z.add_0_r, !app_nil_r. reflexivity.
Qed.

Lemma add_issue_effect i f a : add_issue i a = effect [Rule f 0 [i] []] a.
Proof.
  unfold effect, add_issue; simpl. rewrite Z.add_0_r, !app_nil_r.
  reflexivity.
Qed.

Lemma acc_ext n n' iss iss' ds ds' :
  n = n' -> iss = iss' -> ds = ds' -> Acc n iss ds = Acc n' iss' ds'.
Proof. intros -> -> ->. reflexivity. Qed.

Ltac by_rows :=
  unfold triggered; simpl;
  repeat match goal with
  | |- context [if ?c then _ else _] => destruct c; simpl
  end;
  match goal with
  | |- _ = effect _ ?a =>
      destruct a as [n iss ds];
      unfold effect, flag, add_diseases, add_issue, bump; cbn;
      apply acc_ext;
      [lia | rewrite <- ?app_assoc, ?app_nil_r; reflexivity ..]
  end.

Lemma symptom_rules_table l a :
  symptom_rules l a = effect (triggered l symptom_table) a.
Proof. unfold symptom_rules. by_rows. Qed.

Lemma pH_rule_table l a : pH_rule l a = effect (triggered l pH_table) a.
Proof. unfold pH_rule, SAFE.pH_min, SAFE.pH_max. by_rows. Qed.

Lemma turbidity_rule_table l a :
  turbidity_rule l a = effect (triggered l turbidity_table) a.
Proof.
  unfold turbidity_rule, SAFE.turbidity_max, SAFE.turbidity_ideal. by_rows.
Qed.

(** One more threshold check in front of a table. *)
Lemma rule_step (c : bool) n i ds f l t a :
  f l = c ->
  effect (triggered l t) (if c then flag n i ds a else a)
  = effect (triggered l (Rule f n [i] ds :: t)) a.
Proof.
  intros <-. unfold triggered; simpl. destruct (f l).
  - rewrite (flag_effect n i ds f), effect_app. reflexivity.
  - reflexivity.
Qed.

Lemma contaminant_rules_table l a :
  lead_rule l (nitrate_rule l (fluoride_rule l (arsenic_rule l
    (hpc_rule l (coliforms_rule l (ecoli_rule l a))))))
  = effect (triggered l contaminant_table) a.
Proof.
  unfold contaminant_table.
  rewrite <- !(rule_step _ _ _ _ _ _ _ _ eq_refl).
  symmetry. apply effect_nil.
Qed.

Lemma water_rules_table l a :
  water_rules l a = effect (triggered l water_table) a.
Proof.
  unfold water_rules, water_table.
  rewrite contaminant_rules_table, turbidity_rule_table, pH_rule_table,
    !effect_app, <- !triggered_app.
  reflexivity.
Qed.

(** The threshold rules are the rule table: each triggered row adds its
    points, its issue and its hints, in table order. *)
Lemma rules_as_table l a :
  water_rules l (symptom_rules l a) = effect (triggered l rule_table) a.
Proof.
  rewrite water_rules_table, symptom_rules_table, effect_app,
    <- triggered_app.
  reflexivity.
Qed.

End RuleTable.

(** ** De-duplication *)

Section Dedup.

Lemma dedup_seen l st :
  (fold_left dedup_step l st).1 = list_to_set l ∪ st.1.
Proof.
  revert st. induction l as [|x l IH]; intros st; simpl.
  - set_solver.
  - rewrite IH. unfold dedup_step. destruct (decide (x ∈ st.1)); simpl;
      set_solver.
Qed.

(** One more turn of the loop. *)
Lemma dedup_snoc l x :
  dedup (l ++ [x]) = if decide (x ∈ l) then dedup l else dedup l ++ [x].
Proof.
  unfold dedup. rewrite fold_left_app. simpl. unfold dedup_step at 1.
  rewrite dedup_seen. simpl.
  destruct (decide (x ∈ list_to_set l ∪ ∅)) as [Hin|Hout],
    (decide (x ∈ l)) as [Hl|Hl]; try reflexivity; exfalso; set_solver.
Qed.

Lemma dedup_elem l d : d ∈ dedup l <-> d ∈ l.
Proof.
  induction l as [|x l IH] using rev_ind; [reflexivity|].
  rewrite dedup_snoc. destruct (decide (x ∈ l)); set_solver.
Qed.

Lemma dedup_NoDup l : NoDup (dedup l).
Proof.
  induction l as [|x l IH] using rev_ind; [constructor|].
  rewrite dedup_snoc. destruct (decide (x ∈ l)) as [Hin|Hout]; [exact IH|].
  apply NoDup_app. split_and!; [exact IH | | apply NoDup_singleton].
  intros y Hy ->%list_elem_of_singleton. apply Hout, dedup_elem, Hy.
Qed.

(** The loop keeps each disease at its first occurrence. *)
Lemma dedup_first_occurrence l : first_occurrence_order l (dedup l).
Proof.
  split_and!; [apply dedup_NoDup | intros d; apply dedup_elem |].
  induction l as [|x l IH] using rev_ind; intros pre d post Heq.
  - destruct pre; discriminate.
  - rewrite dedup_snoc in Heq. destruct (decide (x ∈ l)) as [Hin|Hout].
    + destruct (IH _ _ _ Heq) as (pre' & post' & -> & Hd & Hpre).
      exists pre', (post' ++ [x]). rewrite <- app_assoc. auto.
    + destruct post as [|y post _] using rev_ind.
      * apply app_inj_tail in Heq as [<- <-].
        exists l, []. split_and!; [reflexivity | exact Hout |].
        intros y. apply dedup_elem.
      * change (pre ++ d :: post ++ [y]) with (pre ++ (d :: post) ++ [y]) in Heq.
        rewrite app_assoc in Heq. apply app_inj_tail in Heq as [Heq <-].
        destruct (IH _ _ _ Heq) as (pre' & post' & -> & Hd & Hpre).
        exists pre', (post' ++ [x]). rewrite <- app_assoc. auto.
Qed.

(** On a list without repeats the loop changes nothing. *)
Lemma dedup_NoDup_id l : NoDup l -> dedup l = l.
Proof.
  induction l as [|x l IH] using rev_ind; intros Hnd; [reflexivity|].
  apply NoDup_app in Hnd as (Hl & Hx & _). rewrite dedup_snoc.
  destruct (decide (x ∈ l)) as [Hin|Hout].
  - exfalso. apply (Hx x Hin). set_solver.
  - rewrite (IH Hl). reflexivity.
Qed.

End Dedup.

(** ** The coupling rules *)

Section Coupling.

Lemma appends_fresh_refl a : appends_fresh a a.
Proof.
  split_and!; try reflexivity. exists []. rewrite app_nil_r.
  split_and!; [reflexivity | constructor | intros d Hd; inversion Hd].
Qed.

Lemma mem_true d l : mem d l = true <-> d ∈ l.
Proof. unfold mem. rewrite bool_decide_eq_true. reflexivity. Qed.

Lemma mem_false d l : mem d l = false <-> d ∉ l.
Proof. unfold mem. rewrite bool_decide_eq_false. reflexivity. Qed.

(** [ensure_disease] appends [d] only when it is new. *)
Lemma ensure_disease_fresh d a a' :
  appends_fresh a a' -> appends_fresh a (ensure_disease d a').
Proof.
  intros (Hs & Hi & extra & He & Hnd & Hfresh). unfold ensure_disease.
  destruct (mem d (acc_diseases a')) eqn:E.
  - split_and!; [exact Hs | exact Hi |]. exists extra. auto.
  - apply mem_false in E. rewrite He in E.
    split_and!; [exact Hs | exact Hi |]. exists (extra ++ [d]). simpl.
    rewrite He, <- app_assoc. split_and!; [reflexivity | |].
    + apply NoDup_app. split_and!; [exact Hnd | | apply NoDup_singleton].
      intros x Hx ->%list_elem_of_singleton. set_solver.
    + intros x [Hx | ->%list_elem_of_singleton]%elem_of_app;
        [auto | set_solver].
Qed.

Lemma ensure_disease_elem d a : d ∈ acc_diseases (ensure_disease d a).
Proof.
  unfold ensure_disease. destruct (mem d (acc_diseases a)) eqn:E.
  - apply mem_true, E.
  - simpl. set_solver.
Qed.

Lemma ensure_disease_keeps d x a :
  x ∈ acc_diseases a -> x ∈ acc_diseases (ensure_disease d a).
Proof.
  unfold ensure_disease. destruct (mem d (acc_diseases a)); simpl;
    set_solver.
Qed.

Lemma ensure_disease_only d x a :
  x ∈ acc_diseases (ensure_disease d a) -> x ∈ acc_diseases a \/ x = d.
Proof.
  unfold ensure_disease. destruct (mem d (acc_diseases a)); simpl;
    set_solver.
Qed.

(** The coupling rules add no score and no issue, and append only
    diseases that were not yet present. *)
Lemma coupling_rules_fresh l a : appends_fresh a (coupling_rules l a).
Proof.
  unfold coupling_rules.
  repeat match goal with
  | |- context [if ?c then _ else _] => destruct c
  end;
  repeat apply ensure_disease_fresh; apply appends_fresh_refl.
Qed.

Lemma coupling_rules_keeps l x a :
  x ∈ acc_diseases a -> x ∈ acc_diseases (coupling_rules l a).
Proof.
  intros Hx. unfold coupling_rules.
  repeat match goal with
  | |- context [if ?c then _ else _] => destruct c
  end;
  repeat apply ensure_disease_keeps; exact Hx.
Qed.

Lemma coupling_rules_only l x a :
  x ∈ acc_diseases (coupling_rules l a) ->
  x ∈ acc_diseases a \/ x ∈ coupled_diseases.
Proof.
  unfold coupling_rules, coupled_diseases.
  repeat match goal with
  | |- context [if ?c then _ else _] => destruct c
  end;
  intros H;
  repeat match type of H with
  | _ ∈ acc_diseases (ensure_disease _ _) =>
      apply ensure_disease_only in H as [H | ->]; [| set_solver]
  end; auto.
Qed.

(** With diarrhea in the text and a water finding, the three diseases
    are ensured. *)
Lemma coupling_rules_diarrhea l a d :
  contains "diarrhea" (stext l) = true ->
  (PrimFloat.ltb 0 (ecoli l) || PrimFloat.ltb 0 (coliforms l)
   || PrimFloat.ltb SAFE.turbidity_max (turb l))%bool = true ->
  d ∈ ["Cholera"; "Typhoid"; "Gastroenteritis"] ->
  d ∈ acc_diseases (coupling_rules l a).
Proof.
  intros Hd Hw Hin. unfold coupling_rules. rewrite Hd, Hw. simpl.
  assert (d ∈ acc_diseases
            (ensure_disease "Gastroenteritis"
               (ensure_disease "Typhoid" (ensure_disease "Cholera" a)))) as H.
  { apply list_elem_of_In in Hin. simpl in Hin.
    destruct Hin as [<- | [<- | [<- | []]]].
    - do 2 apply ensure_disease_keeps. apply ensure_disease_elem.
    - apply ensure_disease_keeps, ensure_disease_elem.
    - apply ensure_disease_elem. }
  destruct (_ && _)%bool; [apply ensure_disease_keeps|]; exact H.
Qed.

End Coupling.

(** ** The scorer *)

Section ScorerFacts.

Variable float_of_str : string -> option float.

Lemma run_rules_score l :
  acc_score (run_rules l) = total_points (triggered l rule_table).
Proof.
  unfold run_rules.
  destruct (coupling_rules_fresh l (water_rules l (symptom_rules l acc0)))
    as (-> & _). rewrite rules_as_table. reflexivity.
Qed.

Lemma run_rules_issues l :
  acc_issues (run_rules l) = all_issues (triggered l rule_table).
Proof.
  unfold run_rules.
  destruct (coupling_rules_fresh l (water_rules l (symptom_rules l acc0)))
    as (_ & -> & _). rewrite rules_as_table. reflexivity.
Qed.

Lemma flat_map_triggered_sublist (f : rule -> list string) l t :
  flat_map f (triggered l t) `sublist_of` flat_map f t.
Proof.
  induction t as [|rl t IH]; simpl; [constructor|].
  destruct (fires rl l); simpl.
  - apply sublist_app; [reflexivity | exact IH].
  - apply sublist_inserts_l, IH.
Qed.

Lemma all_issues_NoDup : NoDup (all_issues rule_table).
Proof. apply (bool_decide_unpack _). vm_compute. reflexivity. Qed.

Lemma all_hints_NoDup : NoDup (all_hints rule_table).
Proof. apply (bool_decide_unpack _). vm_compute. reflexivity. Qed.

Lemma occurrences_once d (l : list string) :
  NoDup l -> d ∈ l -> occurrences d l = 1%nat.
Proof.
  intros Hnd Hin. unfold occurrences.
  apply NoDup_ListNoDup in Hnd.
  pose proof (proj1 (List.NoDup_count_occ string_dec l) Hnd d) as Hle.
  apply list_elem_of_In, (List.count_occ_In string_dec) in Hin.
  apply Nat.le_antisymm; [exact Hle | exact Hin].
Qed.

Lemma run_rules_issues_NoDup l : NoDup (acc_issues (run_rules l)).
Proof.
  rewrite run_rules_issues.
  eapply sublist_NoDup;
    [apply all_issues_NoDup | apply flat_map_triggered_sublist].
Qed.

(** C10. [issues_found] never holds the same issue twice: each threshold
    check appends its own issue text, at most once. *)
Theorem issues_found_NoDup (r : Report.t) :
  NoDup (issues_found (score_and_infer float_of_str r)).
Proof.
  unfold score_and_infer; cbn [issues_found]. apply run_rules_issues_NoDup.
Qed.

(** The diseases are already distinct when the loop starts. *)
Lemma diseases_emitted_NoDup r : NoDup (diseases_emitted float_of_str r).
Proof.
  unfold diseases_emitted, run_rules.
  set (l := read_locals float_of_str r).
  destruct (coupling_rules_fresh l (water_rules l (symptom_rules l acc0)))
    as (_ & _ & extra & -> & Hnd & Hfresh).
  apply NoDup_app. split_and!; [| intros x Hx Hx'; exact (Hfresh x Hx' Hx) | exact Hnd].
  rewrite rules_as_table. unfold effect; cbn [acc_diseases acc0 app].
  eapply sublist_NoDup;
    [apply all_hints_NoDup | apply flat_map_triggered_sublist].
Qed.

(** C6. [likely_diseases] holds no disease twice, and lists the diseases
    the rules emitted in the order of their first occurrences. *)
Theorem likely_diseases_first_occurrences (r : Report.t) :
  first_occurrence_order (diseases_emitted float_of_str r)
    (likely_diseases (score_and_infer float_of_str r)).
Proof. apply dedup_first_occurrence. Qed.

(** C2. The risk level is a function of the score alone: "High" from 6
    up, "Medium" from 3 to 5, "Low" below 3; so 2 is Low, 3 and 5 are
    Medium and 6 is High. *)
Theorem risk_level_from_score (r : Report.t) :
  let res := score_and_infer float_of_str r in
  risk_level res = risk_bucket (score res) /\
  (6 <= score res -> risk_level res = "High") /\
  (3 <= score res < 6 -> risk_level res = "Medium") /\
  (score res < 3 -> risk_level res = "Low") /\
  (score res = 2 -> risk_level res = "Low") /\
  (score res = 3 -> risk_level res = "Medium") /\
  (score res = 5 -> risk_level res = "Medium") /\
  (score res = 6 -> risk_level res = "High").
Proof.
  unfold score_and_infer; cbn [risk_level score].
  generalize (acc_score (run_rules (read_locals float_of_str r))).
  intros n. unfold risk_bucket.
  split_and!; try reflexivity; intros H;
    repeat match goal with
    | |- context [(?a <=? ?b)%Z] => destruct (Z.leb_spec a b)
    end; try reflexivity; lia.
Qed.

(** *** Monotonicity *)

Lemma rule_points_nonneg : Forall (fun rl => 0 <= points rl) rule_table.
Proof. apply (bool_decide_unpack _). vm_compute. reflexivity. Qed.

Lemma total_points_mono l1 l2 table :
  Forall (fun rl => 0 <= points rl) table ->
  (forall rl, rl ∈ table -> fires rl l1 = true -> fires rl l2 = true) ->
  total_points (triggered l1 table) <= total_points (triggered l2 table).
Proof.
  induction 1 as [|rl t Hrl Ht IH]; intros Hsup; simpl; [lia|].
  assert (IH' : total_points (triggered l1 t) <= total_points (triggered l2 t)).
  { apply IH. intros rl' Hin. apply Hsup. set_solver. }
  pose proof (Hsup rl ltac:(set_solver)) as Hhd.
  destruct (fires rl l1), (fires rl l2); simpl; lia || (specialize (Hhd eq_refl); discriminate).
Qed.

Lemma triggered_rule_table l :
  triggered l rule_table
  = triggered l symptom_table ++ triggered l pH_table
    ++ triggered l turbidity_table ++ triggered l contaminant_table.
Proof.
  unfold rule_table, water_table. rewrite !triggered_app. reflexivity.
Qed.

Lemma turbidity_points l :
  total_points (triggered l turbidity_table)
  = if PrimFloat.ltb 30 (turb l) then 4
    else if PrimFloat.ltb 5.0 (turb l) then 2 else 0.
Proof.
  unfold triggered; simpl.
  destruct (PrimFloat.ltb 30 (turb l)), (PrimFloat.ltb 5 (turb l)),
    (PrimFloat.ltb 1 (turb l)); reflexivity.
Qed.

(** With the turbidity checks read as bare comparisons the score is
    monotone as well. *)
Lemma total_points_mono_bare l1 l2 :
  conditions_superset l1 l2 ->
  total_points (triggered l1 rule_table)
  <= total_points (triggered l2 rule_table).
Proof.
  intros Hsup. rewrite !triggered_rule_table, !total_points_app.
  assert (Hsub : forall t, t `sublist_of` bare_conditions ->
            Forall (fun rl => 0 <= points rl) t ->
            total_points (triggered l1 t) <= total_points (triggered l2 t)).
  { intros t Ht Hnn. apply total_points_mono; [exact Hnn|].
    intros rl Hin. apply Hsup. eapply elem_of_sublist; eassumption. }
  pose proof (Hsub symptom_table) as Hs.
  pose proof (Hsub pH_table) as Hp.
  pose proof (Hsub contaminant_table) as Hc.
  pose proof (Hsup (Rule (fun l => PrimFloat.ltb 30 (turb l)) 4
                         ["Very high turbidity"]
                         ["Pathogens likely; chlorination failure"])) as H30.
  pose proof (Hsup (Rule (fun l => PrimFloat.ltb 5.0 (turb l)) 2
                         ["High turbidity"]
                         ["Pathogens may survive; diarrhea risk"])) as H5.
  cbn [fires] in H30, H5. rewrite !turbidity_points.
  assert (total_points (triggered l1 symptom_table)
          <= total_points (triggered l2 symptom_table)) as Hs'.
  { apply Hs; [|apply (bool_decide_unpack _); vm_compute; reflexivity].
    unfold bare_conditions. apply sublist_inserts_r. reflexivity. }
  assert (total_points (triggered l1 pH_table)
          <= total_points (triggered l2 pH_table)) as Hp'.
  { apply Hp; [|apply (bool_decide_unpack _); vm_compute; reflexivity].
    unfold bare_conditions. apply sublist_inserts_l, sublist_inserts_r.
    reflexivity. }
  assert (total_points (triggered l1 contaminant_table)
          <= total_points (triggered l2 contaminant_table)) as Hc'.
  { apply Hc; [|apply (bool_decide_unpack _); vm_compute; reflexivity].
    unfold bare_conditions. do 3 apply sublist_inserts_l. reflexivity. }
  assert ((if PrimFloat.ltb 30 (turb l1) then 4
           else if PrimFloat.ltb 5 (turb l1) then 2 else 0)
          <= (if PrimFloat.ltb 30 (turb l2) then 4
              else if PrimFloat.ltb 5 (turb l2) then 2 else 0)) as Ht'.
  { destruct (PrimFloat.ltb 30 (turb l1)).
    - rewrite H30; [lia | | reflexivity].
      apply list_elem_of_In. do 6 right. left. reflexivity.
    - destruct (PrimFloat.ltb 5 (turb l1)).
      + rewrite H5; [destruct (PrimFloat.ltb 30 (turb l2)); lia | | reflexivity].
        apply list_elem_of_In. do 7 right. left. reflexivity.
      + destruct (PrimFloat.ltb 30 (turb l2)), (PrimFloat.ltb 5 (turb l2));
          lia. }
  lia.
Qed.

(** C7. The score is the sum of the points of the triggered rules, so a
    report that satisfies every rule condition another report satisfies
    scores at least as much, whether the turbidity conditions are taken as
    the branches of the chain or as the bare comparisons. *)
Theorem score_monotone (r1 r2 : Report.t) :
  triggers_superset (read_locals float_of_str r1)
                    (read_locals float_of_str r2)
  \/ conditions_superset (read_locals float_of_str r1)
                         (read_locals float_of_str r2) ->
  score (score_and_infer float_of_str r1)
    = total_points (triggered (read_locals float_of_str r1) rule_table) /\
  score (score_and_infer float_of_str r2)
    = total_points (triggered (read_locals float_of_str r2) rule_table) /\
  score (score_and_infer float_of_str r1)
    <= score (score_and_infer float_of_str r2).
Proof.
  intros Hsup. unfold score_and_infer; cbn [score].
  rewrite !run_rules_score. split_and!; try reflexivity.
  destruct Hsup as [Hsup | Hsup].
  - apply total_points_mono; [apply rule_points_nonneg | exact Hsup].
  - apply total_points_mono_bare, Hsup.
Qed.

(** *** Turbidity *)

(** The tables other than the turbidity one do not look at turbidity. *)
Lemma other_tables_ignore_turbidity v r :
  let l := read_locals float_of_str r in
  let l' := read_locals float_of_str (with_turbidity v r) in
  triggered l' symptom_table = triggered l symptom_table /\
  triggered l' pH_table = triggered l pH_table /\
  triggered l' contaminant_table = triggered l contaminant_table.
Proof. split_and!; reflexivity. Qed.

Lemma turbidity_40_triggers l :
  turb l = 40%float ->
  triggered l turbidity_table
  = [Rule (fun l => PrimFloat.ltb 30 (turb l)) 4 ["Very high turbidity"]
          ["Pathogens likely; chlorination failure"]].
Proof. intros H. unfold triggered; simpl. rewrite H. reflexivity. Qed.

Lemma all_issues_triggered_elem x l t :
  x ∈ all_issues (triggered l t) -> x ∈ all_issues t.
Proof.
  intros Hx. eapply elem_of_sublist; [exact Hx|].
  apply flat_map_triggered_sublist.
Qed.

Lemma all_hints_triggered_elem x l t :
  x ∈ all_hints (triggered l t) -> x ∈ all_hints t.
Proof.
  intros Hx. eapply elem_of_sublist; [exact Hx|].
  apply flat_map_triggered_sublist.
Qed.

Lemma all_issues_app rs1 rs2 :
  all_issues (rs1 ++ rs2) = all_issues rs1 ++ all_issues rs2.
Proof. apply flat_map_app. Qed.

Lemma all_hints_app rs1 rs2 :
  all_hints (rs1 ++ rs2) = all_hints rs1 ++ all_hints rs2.
Proof. apply flat_map_app. Qed.

(** The turbidity checks at turbidity 40.  At turbidity 40
    only the "> 30" branch fires: against the same report without a
    turbidity reading the score is 4 higher and the issues are the same
    with "Very high turbidity" put in, once; the "> 5" and "> 1" branches
    add neither their issue nor their disease hint. *)
Lemma turbidity_40_first_branch_only (r : Report.t) :
  turb (read_locals float_of_str r) = 40%float ->
  let res := score_and_infer float_of_str r in
  let res0 := score_and_infer float_of_str (with_turbidity PNone r) in
  score res = score res0 + 4 /\
  (exists pre post,
      issues_found res0 = pre ++ post /\
      issues_found res = pre ++ "Very high turbidity" :: post) /\
  occurrences "Very high turbidity" (issues_found res) = 1%nat /\
  ("High turbidity" ∉ issues_found res) /\
  ("Turbidity above ideal" ∉ issues_found res) /\
  ("Pathogens may survive; diarrhea risk" ∉ likely_diseases res).
Proof.
  intros H40 res res0.
  pose proof (other_tables_ignore_turbidity PNone r) as (Hs & Hp & Hc).
  cbv zeta in Hs, Hp, Hc.
  set (l := read_locals float_of_str r) in *.
  set (l0 := read_locals float_of_str (with_turbidity PNone r)) in *.
  assert (Hi : issues_found res
               = all_issues (triggered l symptom_table ++ triggered l pH_table)
                 ++ "Very high turbidity"
                 :: all_issues (triggered l contaminant_table)).
  { subst res. unfold score_and_infer; cbn [issues_found]. fold l.
    rewrite run_rules_issues, triggered_rule_table,
      (turbidity_40_triggers l H40), app_assoc, !all_issues_app.
    reflexivity. }
  assert (Hi0 : issues_found res0
                = all_issues (triggered l symptom_table ++ triggered l pH_table)
                  ++ all_issues (triggered l contaminant_table)).
  { subst res0. unfold score_and_infer; cbn [issues_found]. fold l0.
    rewrite run_rules_issues, triggered_rule_table, Hs, Hp, Hc.
    change (triggered l0 turbidity_table) with (@nil rule).
    rewrite app_assoc, !all_issues_app. reflexivity. }
  assert (Hother : forall x, x ∈ issues_found res ->
                             x ∈ turbidity_issues -> x = "Very high turbidity").
  { intros x Hx Hturb. rewrite Hi, <- triggered_app in Hx.
    apply elem_of_app in Hx as [Hx | Hx].
    - apply all_issues_triggered_elem in Hx. exfalso. revert Hturb.
      apply list_elem_of_In in Hx. simpl in Hx.
      destruct Hx as [<- | []]. unfold turbidity_issues.
      rewrite !elem_of_cons, elem_of_nil. intros [? | [? | [? | []]]];
        discriminate.
    - apply elem_of_cons in Hx as [-> | Hx]; [reflexivity|].
      apply all_issues_triggered_elem in Hx. exfalso. revert Hturb.
      apply list_elem_of_In in Hx. simpl in Hx. unfold turbidity_issues.
      rewrite !elem_of_cons, elem_of_nil.
      repeat destruct Hx as [<- | Hx]; try destruct Hx;
        intros [? | [? | [? | []]]]; discriminate. }
  split_and!.
  - subst res res0. unfold score_and_infer; cbn [score]. fold l l0.
    rewrite !run_rules_score, !triggered_rule_table, Hs, Hp, Hc,
      (turbidity_40_triggers l H40).
    change (triggered l0 turbidity_table) with (@nil rule).
    rewrite !total_points_app. simpl. lia.
  - eexists _, _. split; [exact Hi0 | exact Hi].
  - apply occurrences_once; [apply run_rules_issues_NoDup|].
    rewrite Hi, elem_of_app, elem_of_cons. auto.
  - intros Hx. specialize (Hother _ Hx). unfold turbidity_issues in Hother.
    rewrite !elem_of_cons in Hother. specialize (Hother ltac:(auto)).
    discriminate.
  - intros Hx. specialize (Hother _ Hx). unfold turbidity_issues in Hother.
    rewrite !elem_of_cons in Hother. specialize (Hother ltac:(auto)).
    discriminate.
  - subst res. unfold score_and_infer; cbn [likely_diseases]. fold l.
    rewrite dedup_elem. unfold run_rules.
    intros [Hx | Hx]%coupling_rules_only.
    + rewrite rules_as_table in Hx. unfold effect in Hx.
      cbn [acc_diseases acc0 app] in Hx.
      rewrite triggered_rule_table, (turbidity_40_triggers l H40),
        !all_hints_app in Hx.
      rewrite !elem_of_app in Hx.
      destruct Hx as [Hx | [Hx | [Hx | Hx]]];
        try apply all_hints_triggered_elem in Hx;
        apply list_elem_of_In in Hx; simpl in Hx;
        repeat destruct Hx as [Hx | Hx]; try discriminate; try destruct Hx.
    + apply list_elem_of_In in Hx; simpl in Hx.
      repeat destruct Hx as [Hx | Hx]; try discriminate; try destruct Hx.
Qed.

(** *** Coupling *)

Lemma fired_rule_hints l table rl x :
  In rl table -> fires rl l = true -> x ∈ hints rl ->
  x ∈ all_hints (triggered l table).
Proof.
  intros Hin Hf Hx. apply list_elem_of_In, in_flat_map. exists rl. split.
  - apply List.filter_In. auto.
  - apply list_elem_of_In, Hx.
Qed.

(** C8. With "diarrhea" in the symptom text and a positive E. coli count,
    Cholera, Typhoid, Gastroenteritis and Diarrhea are each listed exactly
    once; the coupling rules leave score and issues alone and append only
    diseases that were not yet listed. *)
Theorem diarrhea_with_ecoli_diseases (r : Report.t) :
  contains "diarrhea" (stext (read_locals float_of_str r)) = true ->
  PrimFloat.ltb 0 (ecoli (read_locals float_of_str r)) = true ->
  let res := score_and_infer float_of_str r in
  (forall d, d ∈ ["Cholera"; "Typhoid"; "Gastroenteritis"; "Diarrhea"] ->
             occurrences d (likely_diseases res) = 1%nat) /\
  appends_fresh (before_coupling float_of_str r)
                (run_rules (read_locals float_of_str r)) /\
  score res = acc_score (before_coupling float_of_str r).
Proof.
  intros Hd He res. split_and!.
  - intros d Hin. apply occurrences_once; [apply dedup_NoDup|].
    subst res. unfold score_and_infer; cbn [likely_diseases].
    apply dedup_elem. unfold run_rules.
    rewrite !elem_of_cons, elem_of_nil in Hin.
    destruct Hin as [-> | [-> | [-> | [-> | []]]]].
    1-3: apply coupling_rules_diarrhea;
         [exact Hd | rewrite He; reflexivity | rewrite !elem_of_cons; auto].
    apply coupling_rules_keeps. rewrite rules_as_table.
    unfold effect; cbn [acc_diseases acc0 app].
    eapply (fired_rule_hints _ _
              (Rule (fun l => PrimFloat.ltb 0 (ecoli l)) 5 ["E. coli present"]
                    ["Diarrhea"; "Cholera"; "Typhoid"])).
    + do 9 right. left. reflexivity.
    + exact He.
    + cbn [hints]. rewrite !elem_of_cons. auto.
  - apply coupling_rules_fresh.
  - subst res. unfold score_and_infer; cbn [score].
    apply coupling_rules_fresh.
Qed.

End ScorerFacts.

(** ** Counter *)

Section CounterFacts.

Implicit Types (c : Counter) (k : string) (s : list string).

Lemma get_incr k k' c :
  get (incr k c) k' = if String.eqb k' k then S (get c k') else get c k'.
Proof.
  induction c as [|[k0 n] c IH]; simpl.
  - destruct (String.eqb_spec k' k); reflexivity.
  - destruct (String.eqb_spec k k0) as [->|Hne]; simpl.
    + destruct (String.eqb_spec k' k0); reflexivity.
    + rewrite IH. destruct (String.eqb_spec k' k0) as [->|];
        [|reflexivity].
      destruct (String.eqb_spec k0 k); [congruence | reflexivity].
Qed.

Lemma incr_keys k c :
  (incr k c).*1 = if decide (k ∈ c.*1) then c.*1 else c.*1 ++ [k].
Proof.
  induction c as [|[k0 n] c IH]; csimpl.
  - reflexivity.
  - destruct (String.eqb_spec k k0) as [->|Hne]; csimpl.
    + clear IH. case_decide as H; [reflexivity|]. exfalso. apply H. left.
    + rewrite IH. repeat case_decide; try reflexivity; exfalso; set_solver.
Qed.

Lemma Counter_of_snoc s k : Counter_of (s ++ [k]) = incr k (Counter_of s).
Proof. unfold Counter_of. rewrite fold_left_app. reflexivity. Qed.

Lemma occurrences_snoc k k' s :
  occurrences k (s ++ [k'])
  = if String.eqb k k' then S (occurrences k s) else occurrences k s.
Proof.
  unfold occurrences. rewrite count_occ_app. simpl.
  destruct (string_dec k' k) as [->|Hne].
  - rewrite String.eqb_refl. lia.
  - destruct (String.eqb_spec k k'); [congruence | lia].
Qed.

(** [Counter(s)[k]] is the number of times [k] occurs in [s]. *)
Lemma get_Counter_of s k : get (Counter_of s) k = occurrences k s.
Proof.
  induction s as [|k' s IH] using rev_ind; [reflexivity|].
  rewrite Counter_of_snoc, get_incr, occurrences_snoc, IH. reflexivity.
Qed.

Lemma keys_Counter_of_elem s k : k ∈ (Counter_of s).*1 <-> k ∈ s.
Proof.
  induction s as [|k' s IH] using rev_ind; [reflexivity|].
  rewrite Counter_of_snoc, incr_keys.
  destruct (decide (k' ∈ (Counter_of s).*1)) as [Hin|Hout].
  - rewrite IH, elem_of_app, list_elem_of_singleton.
    split; [auto | intros [?| ->]; [assumption | apply IH, Hin]].
  - rewrite !elem_of_app, IH. reflexivity.
Qed.

Lemma keys_Counter_of_NoDup s : NoDup (Counter_of s).*1.
Proof.
  induction s as [|k' s IH] using rev_ind; [constructor|].
  rewrite Counter_of_snoc, incr_keys.
  destruct (decide (k' ∈ (Counter_of s).*1)) as [Hin|Hout]; [exact IH|].
  apply NoDup_app. split_and!; [exact IH | | apply NoDup_singleton].
  intros x Hx ->%list_elem_of_singleton. exact (Hout Hx).
Qed.

(** The items carry the counts. *)
Lemma get_item c k n : NoDup c.*1 -> (k, n) ∈ c -> get c k = n.
Proof.
  induction c as [|[k0 n0] c IH]; simpl; intros Hnd Hin.
  - inversion Hin.
  - apply NoDup_cons in Hnd as [Hk0 Hnd].
    apply elem_of_cons in Hin as [[= -> ->]|Hin].
    + rewrite String.eqb_refl. reflexivity.
    + destruct (String.eqb_spec k k0) as [->|]; [|auto].
      exfalso. apply Hk0. apply (list_elem_of_fmap_2 fst) in Hin. exact Hin.
Qed.

Lemma Counter_of_items s k n :
  (k, n) ∈ Counter_of s -> n = occurrences k s.
Proof.
  intros Hin. rewrite <- get_Counter_of. symmetry.
  apply get_item; [apply keys_Counter_of_NoDup | exact Hin].
Qed.

(** *** First occurrences *)

Lemma first_index_le k s : (first_index k s <= length s)%nat.
Proof.
  induction s as [|y s IH]; simpl; [lia|].
  destruct (String.eqb k y); lia.
Qed.

Lemma first_index_elem k s : k ∈ s <-> (first_index k s < length s)%nat.
Proof.
  induction s as [|y s IH]; simpl.
  - split; [inversion 1 | lia].
  - rewrite elem_of_cons. destruct (String.eqb_spec k y) as [->|Hne].
    + split; [lia | auto].
    + rewrite IH. split; [intros [?|?]; [congruence | lia] | right; lia].
Qed.

Lemma first_index_app k s t :
  first_index k (s ++ t)
  = if decide (k ∈ s) then first_index k s
    else (length s + first_index k t)%nat.
Proof.
  induction s as [|y s IH]; csimpl.
  - reflexivity.
  - destruct (String.eqb_spec k y) as [->|Hne].
    + clear IH. case_decide as H; [reflexivity|]. exfalso. apply H. left.
    + rewrite IH. repeat case_decide; try reflexivity; exfalso; set_solver.
Qed.

(** The insertion order of a [Counter] is the order of first
    occurrences. *)
Lemma keys_Counter_of_order s :
  StronglySorted (fun k1 k2 => (first_index k1 s < first_index k2 s)%nat)
                 (Counter_of s).*1.
Proof.
  induction s as [|k' s IH] using rev_ind; [constructor|].
  assert (Hold : forall k, k ∈ (Counter_of s).*1 ->
                   first_index k (s ++ [k']) = first_index k s
                   /\ (first_index k s < length s)%nat).
  { intros k Hk. apply (proj1 (keys_Counter_of_elem s k)) in Hk.
    rewrite first_index_app.
    destruct (decide (k ∈ s)); [|done].
    split; [reflexivity | apply first_index_elem; assumption]. }
  assert (IH' : StronglySorted
                  (fun k1 k2 => (first_index k1 (s ++ [k'])
                                 < first_index k2 (s ++ [k']))%nat)
                  (Counter_of s).*1).
  { revert Hold. generalize ((Counter_of s).*1) IH. clear IH.
    induction 1 as [|k l Hl IHl Hk]; intros Hold; constructor.
    - apply IHl. intros k0 H0. apply Hold. right. exact H0.
    - rewrite Forall_forall in Hk |- *. intros k2 H2.
      destruct (Hold k ltac:(left)) as [-> _].
      destruct (Hold k2 ltac:(right; exact H2)) as [-> _]. auto. }
  rewrite Counter_of_snoc, incr_keys.
  destruct (decide (k' ∈ (Counter_of s).*1)) as [Hin|Hout]; [exact IH'|].
  apply StronglySorted_app_2; [| exact IH' | repeat constructor].
  intros k1 k2 H1 ->%list_elem_of_singleton.
  destruct (Hold k1 H1) as [-> Hlt].
  rewrite first_index_app. rewrite keys_Counter_of_elem in Hout.
  destruct (decide (k' ∈ s)); [done|]. simpl. rewrite String.eqb_refl. lia.
Qed.

End CounterFacts.

(** ** Sorting by count *)

Section SortFacts.

Variable tie : relation (string * nat).

Lemma insert_desc_perm x l : insert_desc x l ≡ₚ x :: l.
Proof.
  induction l as [|y l IH]; simpl; [reflexivity|].
  destruct (y.2 <=? x.2)%nat; [reflexivity|].
  rewrite IH. apply Permutation_swap.
Qed.

Lemma sort_desc_perm c : sort_desc c ≡ₚ c.
Proof.
  induction c as [|x c IH]; simpl; [reflexivity|].
  rewrite insert_desc_perm, IH. reflexivity.
Qed.

(** In a sorted list the counts do not increase. *)
Lemma sorted_counts_below x l :
  StronglySorted (ranks_before tie) (x :: l) ->
  Forall (fun y => (y.2 <= x.2)%nat) l.
Proof.
  intros [Hx _]%StronglySorted_cons. eapply Forall_impl; [exact Hx|].
  intros y [Hlt | [Heq _]]; simpl in *; lia.
Qed.

(** Inserting an item that precedes all of [l] in the tie order. *)
Lemma insert_desc_sorted x l :
  Forall (tie x) l ->
  StronglySorted (ranks_before tie) l ->
  StronglySorted (ranks_before tie) (insert_desc x l).
Proof.
  induction l as [|y l IH]; simpl; intros Htie Hs.
  - repeat constructor.
  - destruct (Nat.leb_spec y.2 x.2) as [Hle | Hgt].
    + constructor; [exact Hs|].
      pose proof (sorted_counts_below _ _ Hs) as Hbelow.
      rewrite Forall_forall in Htie, Hbelow |- *.
      intros z Hz. specialize (Htie z Hz).
      assert ((z.2 <= x.2)%nat) as Hzx.
      { apply elem_of_cons in Hz as [-> | Hz]; [exact Hle|].
        specialize (Hbelow z Hz). lia. }
      unfold ranks_before.
      destruct (decide (z.2 = x.2)) as [Heq|Hne]; [right; auto | left; lia].
    + apply Forall_cons in Htie as [_ Htie].
      apply StronglySorted_cons in Hs as [Hy Hs].
      constructor; [apply IH; assumption|].
      rewrite insert_desc_perm. constructor; [left; exact Hgt | exact Hy].
Qed.

(** [sort_desc] sorts by descending count and is stable. *)
Lemma sort_desc_sorted c :
  StronglySorted tie c -> StronglySorted (ranks_before tie) (sort_desc c).
Proof.
  induction 1 as [|x c Hc IH Hx]; simpl; [constructor|].
  apply insert_desc_sorted; [|exact IH].
  rewrite sort_desc_perm. exact Hx.
Qed.

End SortFacts.

Section TopFive.

Lemma StronglySorted_among {A} (P : A -> Prop) (R R' : relation A) l :
  (forall x y, P x -> P y -> R x y -> R' x y) ->
  Forall P l -> StronglySorted R l -> StronglySorted R' l.
Proof.
  intros HR HP Hs. induction Hs as [|x l Hl IH Hx]; constructor.
  - apply IH. apply Forall_cons in HP as [_ HP]. exact HP.
  - apply Forall_cons in HP as [Px HP].
    rewrite Forall_forall in Hx, HP |- *. intros y Hy. auto.
Qed.

(** The keys of [Counter(stream)], most common first, are the distinct
    values of [stream] in ranking order. *)
Lemma sort_desc_Counter_of stream :
  let keys := (sort_desc (Counter_of stream)).*1 in
  NoDup keys /\
  (forall k, k ∈ keys <-> k ∈ stream) /\
  StronglySorted (outranks stream) keys.
Proof.
  intros keys. subst keys.
  assert (Hperm : (sort_desc (Counter_of stream)).*1
                  ≡ₚ (Counter_of stream).*1).
  { apply fmap_Permutation, sort_desc_perm. }
  split_and!.
  - rewrite Hperm. apply keys_Counter_of_NoDup.
  - intros k. rewrite Hperm. apply keys_Counter_of_elem.
  - apply (StronglySorted_fmap fst
             (fun x y => outranks stream x.1 y.1) (outranks stream));
      [auto|].
    set (tie := fun x y : string * nat =>
                  (first_index x.1 stream < first_index y.1 stream)%nat).
    apply (StronglySorted_among
             (fun x => x.2 = occurrences x.1 stream) (ranks_before tie)).
    + intros [k1 n1] [k2 n2]; simpl. intros -> ->.
      unfold ranks_before, outranks, tie; simpl. tauto.
    + rewrite sort_desc_perm. apply Forall_forall. intros [k n] Hin.
      simpl. apply Counter_of_items, Hin.
    + apply sort_desc_sorted.
      pose proof (keys_Counter_of_order stream) as Hord.
      revert Hord. generalize (Counter_of stream). intros c.
      induction c as [|x c IH]; csimpl; intros Hs; constructor.
      * apply IH. apply StronglySorted_cons in Hs as [_ Hs]. exact Hs.
      * apply StronglySorted_cons in Hs as [Hx _].
        rewrite Forall_fmap in Hx. exact Hx.
Qed.

(** [most_common(5)] of [Counter(stream)] is the top five of [stream]. *)
Lemma most_common_top_five stream :
  top_five_of stream (most_common 5 (Counter_of stream)).*1.
Proof.
  unfold top_five_of, most_common. split.
  - rewrite length_fmap, length_take. lia.
  - exists (drop 5 (sort_desc (Counter_of stream))).*1.
    rewrite <- fmap_app, take_drop.
    destruct (sort_desc_Counter_of stream) as (Hnd & Hel & Hs).
    split_and!; [exact Hnd | exact Hel | exact Hs |].
    intros Hrest. rewrite length_fmap, length_take.
    destruct (decide (length (sort_desc (Counter_of stream)) <= 5)%nat)
      as [Hle|Hgt]; [|lia].
    exfalso. apply Hrest. rewrite drop_ge by exact Hle. reflexivity.
Qed.

End TopFive.

(** ** The aggregation loop *)

Section AggregatorFacts.

Variable float_of_str : string -> option float.

Lemma tally_lookup loc' key (m : gmap string Counter) loc :
  tally loc' key m !!! loc
  = if decide (loc' = loc) then incr key (m !!! loc) else m !!! loc.
Proof.
  unfold tally. destruct (decide (loc' = loc)) as [->|Hne].
  - apply lookup_total_insert_eq.
  - apply lookup_total_insert_ne, Hne.
Qed.

Lemma tally_fold loc' keys (m : gmap string Counter) loc :
  fold_left (fun m k => tally loc' k m) keys m !!! loc
  = if decide (loc' = loc)
    then fold_left (fun c k => incr k c) keys (m !!! loc)
    else m !!! loc.
Proof.
  revert m. induction keys as [|k keys IH]; intros m; simpl.
  - destruct (decide (loc' = loc)); reflexivity.
  - rewrite IH, tally_lookup. destruct (decide (loc' = loc)); reflexivity.
Qed.

Lemma Counter_of_app s t :
  Counter_of (s ++ t) = fold_left (fun c k => incr k c) t (Counter_of s).
Proof. unfold Counter_of. apply fold_left_app. Qed.

Lemma at_location_snoc loc reports r :
  at_location float_of_str loc (reports ++ [r])
  = at_location float_of_str loc reports
    ++ (if decide (location (score_and_infer float_of_str r) = loc)
        then [score_and_infer float_of_str r] else []).
Proof.
  unfold at_location. rewrite map_app, List.filter_app. f_equal.
  cbn [map List.filter].
  destruct (String.eqb_spec (location (score_and_infer float_of_str r)) loc),
    (decide (location (score_and_infer float_of_str r) = loc));
    congruence.
Qed.

(** After the loop each location's counters are the [Counter]s of the
    streams of that location. *)
Lemma aggregate_tallies reports loc :
  let st := fold_left (aggregate_step float_of_str) reports tallies0 in
  loc_issues st !!! loc
    = Counter_of (issue_stream float_of_str loc reports) /\
  loc_diseases st !!! loc
    = Counter_of (disease_stream float_of_str loc reports).
Proof.
  induction reports as [|r reports IH] using rev_ind.
  - cbn [fold_left tallies0 loc_issues loc_diseases].
    rewrite !lookup_total_empty. split; reflexivity.
  - cbv zeta in *. destruct IH as [IHi IHd].
    rewrite fold_left_app. cbn [fold_left]. unfold aggregate_step at 1 3.
    cbn [loc_issues loc_diseases].
    rewrite !tally_fold, IHi, IHd.
    unfold issue_stream, disease_stream. rewrite at_location_snoc.
    change (or_text (Report.location r) "Unknown")
      with (location (score_and_infer float_of_str r)).
    rewrite !flat_map_app.
    destruct (decide (location (score_and_infer float_of_str r) = loc));
      cbn [flat_map]; rewrite ?app_nil_r; [|split; reflexivity].
    rewrite !Counter_of_app. split; reflexivity.
Qed.

(** C9. In every location summary [top_issues] and [likely_diseases_top]
    hold at most five entries, however many distinct values occurred at
    the location: the most frequent ones, by descending frequency, values
    of equal frequency in the order they were first encountered. *)
Theorem summary_top_five (reports : list Report.t) (loc : string)
    (summ : LocationSummary) :
  (aggregate_location_patterns float_of_str reports).2 !! loc = Some summ ->
  top_five_of (issue_stream float_of_str loc reports) (top_issues summ) /\
  top_five_of (disease_stream float_of_str loc reports)
              (likely_diseases_top summ).
Proof.
  unfold aggregate_location_patterns. cbn [snd].
  intros Hlook. apply lookup_set_to_map in Hlook as (loc' & _ & Heq);
    [|intros y y' _ _ Hy; exact Hy].
  injection Heq as -> <-. unfold summarize. cbn [top_issues likely_diseases_top].
  destruct (aggregate_tallies reports loc) as [-> ->].
  split; apply most_common_top_five.
Qed.

End AggregatorFacts.

(** ** The global verdict *)

Section Verdict.

Lemma overall_risk_nonempty prs :
  prs <> [] ->
  overall_risk_from_reports prs
  = if clears_threshold prs "High" then "High"
    else if clears_threshold prs "Medium" then "Medium"
    else "Low".
Proof.
  intros Hne. destruct prs as [|pr prs]; [congruence|].
  unfold overall_risk_from_reports, clears_threshold.
  rewrite !get_Counter_of. reflexivity.
Qed.

(** C3. No report gives "No Data".  Otherwise, with both fractions taken
    over all reports: "High" when the fraction of High reports is at
    least 0.33, whatever the Medium fraction; else "Medium" when the
    fraction of Medium reports is at least 0.33; else "Low". *)
Theorem overall_risk_verdict (prs : list scored) :
  (prs = [] -> overall_risk_from_reports prs = "No Data") /\
  (prs <> [] -> clears_threshold prs "High" = true ->
   overall_risk_from_reports prs = "High") /\
  (prs <> [] -> clears_threshold prs "High" = false ->
   clears_threshold prs "Medium" = true ->
   overall_risk_from_reports prs = "Medium") /\
  (prs <> [] -> clears_threshold prs "High" = false ->
   clears_threshold prs "Medium" = false ->
   overall_risk_from_reports prs = "Low").
Proof.
  split_and!.
  - intros ->. reflexivity.
  - intros Hne Hh. rewrite (overall_risk_nonempty _ Hne), Hh. reflexivity.
  - intros Hne Hh Hm. rewrite (overall_risk_nonempty _ Hne), Hh, Hm.
    reflexivity.
  - intros Hne Hh Hm. rewrite (overall_risk_nonempty _ Hne), Hh, Hm.
    reflexivity.
Qed.

(** C4, as the code has it.  Three reports at High, Medium and Low: one
    in three is High, and 1/3 is at least 0.33, so the verdict is
    "High". *)
Theorem overall_risk_high_medium_low (prs : list scored) :
  risk_levels prs = ["High"; "Medium"; "Low"] ->
  overall_risk_from_reports prs = "High".
Proof.
  intros H. assert (Hlen : length prs = 3%nat).
  { rewrite <- (length_map (fun r => risk_level (derived r)) prs).
    fold (risk_levels prs). rewrite H. reflexivity. }
  rewrite overall_risk_nonempty by (intros ->; discriminate).
  unfold clears_threshold. rewrite H, Hlen. reflexivity.
Qed.

End Verdict.

(** * Further properties of the scorer *)

Section ScorerMore.

Variable float_of_str : string -> option float.

(** *** Bounds of the score *)

Lemma total_points_triggered_nonneg l table :
  Forall (fun rl => 0 <= points rl) table ->
  0 <= total_points (triggered l table).
Proof.
  induction 1 as [|rl t Hrl Ht IH]; simpl; [lia|].
  destruct (fires rl l); simpl; lia.
Qed.

Lemma total_points_triggered_le l table :
  Forall (fun rl => 0 <= points rl) table ->
  total_points (triggered l table) <= total_points table.
Proof.
  induction 1 as [|rl t Hrl Ht IH]; simpl; [lia|].
  destruct (fires rl l); simpl; lia.
Qed.

Lemma symptom_points_nonneg : Forall (fun rl => 0 <= points rl) symptom_table.
Proof. apply (bool_decide_unpack _). vm_compute. reflexivity. Qed.

Lemma pH_points_nonneg : Forall (fun rl => 0 <= points rl) pH_table.
Proof. apply (bool_decide_unpack _). vm_compute. reflexivity. Qed.

Lemma contaminant_points_nonneg :
  Forall (fun rl => 0 <= points rl) contaminant_table.
Proof. apply (bool_decide_unpack _). vm_compute. reflexivity. Qed.

(** The score lies between 0 and 39, and both ends are reached: the
    symptoms give at most 10, pH 2, the turbidity chain 4 and the other
    thresholds 23. *)
Theorem score_bounds :
  (forall r, 0 <= score (score_and_infer float_of_str r) <= 39) /\
  score (score_and_infer float_of_str quiet_report) = 0 /\
  score (score_and_infer float_of_str worst_report) = 39.
Proof.
  split_and!; [| vm_compute; reflexivity ..].
  intros r. unfold score_and_infer; cbn [score].
  rewrite run_rules_score, triggered_rule_table, !total_points_app,
    turbidity_points.
  set (l := read_locals float_of_str r).
  pose proof (total_points_triggered_nonneg l _ symptom_points_nonneg).
  pose proof (total_points_triggered_nonneg l _ pH_points_nonneg).
  pose proof (total_points_triggered_nonneg l _ contaminant_points_nonneg).
  pose proof (total_points_triggered_le l _ symptom_points_nonneg) as Hs.
  pose proof (total_points_triggered_le l _ pH_points_nonneg) as Hp.
  pose proof (total_points_triggered_le l _ contaminant_points_nonneg) as Hc.
  change (total_points symptom_table) with 10 in Hs.
  change (total_points pH_table) with 2 in Hp.
  change (total_points contaminant_table) with 23 in Hc.
  destruct (PrimFloat.ltb 30 (turb l)), (PrimFloat.ltb 5 (turb l)); lia.
Qed.

(** *** Which issues and diseases are reported *)

(** In a table whose texts are pairwise distinct, a text is collected
    exactly when its own row fires. *)
Lemma flat_map_triggered_iff (f : rule -> list string) l table rl x :
  NoDup (flat_map f table) -> In rl table -> x ∈ f rl ->
  (x ∈ flat_map f (triggered l table) <-> fires rl l = true).
Proof.
  induction table as [|r0 t IH]; simpl; intros Hnd Hin Hx; [destruct Hin|].
  apply NoDup_app in Hnd as (Hr0 & Hdisj & Hnd).
  destruct Hin as [-> | Hin].
  - destruct (fires rl l) eqn:E; simpl.
    + split; [reflexivity|]. intros _. apply elem_of_app. left. exact Hx.
    + split; [|discriminate]. intros Hx'. exfalso.
      apply (Hdisj x Hx). eapply elem_of_sublist; [exact Hx'|].
      apply flat_map_triggered_sublist.
  - assert (x ∉ f r0) as Hnot.
    { intros Hx0. apply (Hdisj x Hx0). apply list_elem_of_In, in_flat_map.
      exists rl. split; [exact Hin | apply list_elem_of_In, Hx]. }
    rewrite <- (IH Hnd Hin Hx). destruct (fires r0 l); simpl; [|reflexivity].
    rewrite elem_of_app. tauto.
Qed.

Lemma issue_iff_row l n x :
  (n < length rule_table)%nat ->
  x ∈ issue (nth n rule_table (Rule (fun _ => false) 0 [] [])) ->
  (x ∈ acc_issues (run_rules l)
   <-> fires (nth n rule_table (Rule (fun _ => false) 0 [] [])) l = true).
Proof.
  intros Hn Hx. rewrite run_rules_issues.
  apply flat_map_triggered_iff; [apply all_issues_NoDup | | exact Hx].
  apply nth_In, Hn.
Qed.

(** Each issue is reported exactly when its own check fires. *)
Theorem issue_reported_iff (r : Report.t) :
  let l := read_locals float_of_str r in
  let issues := issues_found (score_and_infer float_of_str r) in
  ("Unsafe pH" ∈ issues <->
   (PrimFloat.ltb (pH l) 6.5 || PrimFloat.ltb 8.5 (pH l))%bool = true) /\
  ("Very high turbidity" ∈ issues <-> PrimFloat.ltb 30 (turb l) = true) /\
  ("High turbidity" ∈ issues <->
   (negb (PrimFloat.ltb 30 (turb l)) && PrimFloat.ltb 5 (turb l))%bool = true) /\
  ("Turbidity above ideal" ∈ issues <->
   (negb (PrimFloat.ltb 30 (turb l)) && negb (PrimFloat.ltb 5 (turb l))
    && PrimFloat.ltb 1 (turb l))%bool = true) /\
  ("E. coli present" ∈ issues <-> PrimFloat.ltb 0 (ecoli l) = true) /\
  ("Fecal contamination (coliforms)" ∈ issues <->
   PrimFloat.ltb 0 (coliforms l) = true) /\
  ("High HPC" ∈ issues <-> PrimFloat.ltb 500 (hpc l) = true) /\
  ("Arsenic above safe limit" ∈ issues <->
   PrimFloat.ltb 0.01 (arsenic l) = true) /\
  ("High fluoride" ∈ issues <-> PrimFloat.ltb 1.5 (fluoride l) = true) /\
  ("High nitrate" ∈ issues <-> PrimFloat.ltb 45 (nitrate l) = true) /\
  ("Lead above safe limit" ∈ issues <-> PrimFloat.ltb 0.01 (lead l) = true).
Proof.
  intros l issues. subst issues. unfold score_and_infer; cbn [issues_found].
  fold l.
  split_and!.
  - apply (issue_iff_row l 5); [apply Nat.ltb_lt; reflexivity | left].
  - apply (issue_iff_row l 6); [apply Nat.ltb_lt; reflexivity | left].
  - apply (issue_iff_row l 7); [apply Nat.ltb_lt; reflexivity | left].
  - apply (issue_iff_row l 8); [apply Nat.ltb_lt; reflexivity | left].
  - apply (issue_iff_row l 9); [apply Nat.ltb_lt; reflexivity | left].
  - apply (issue_iff_row l 10); [apply Nat.ltb_lt; reflexivity | left].
  - apply (issue_iff_row l 11); [apply Nat.ltb_lt; reflexivity | left].
  - apply (issue_iff_row l 12); [apply Nat.ltb_lt; reflexivity | left].
  - apply (issue_iff_row l 13); [apply Nat.ltb_lt; reflexivity | left].
  - apply (issue_iff_row l 14); [apply Nat.ltb_lt; reflexivity | left].
  - apply (issue_iff_row l 15); [apply Nat.ltb_lt; reflexivity | left].
Qed.

Lemma sublist_length_le (l1 l2 : list string) :
  l1 `sublist_of` l2 -> (length l1 <= length l2)%nat.
Proof. apply sublist_length. Qed.

(** The issues come in the fixed order of the checks, and there are at most
    nine of them: one for pH, one for turbidity and seven for the other
    thresholds. *)
Theorem issues_in_check_order (r : Report.t) :
  let issues := issues_found (score_and_infer float_of_str r) in
  issues `sublist_of`
    ["Unsafe pH"; "Very high turbidity"; "High turbidity";
     "Turbidity above ideal"; "E. coli present";
     "Fecal contamination (coliforms)"; "High HPC";
     "Arsenic above safe limit"; "High fluoride"; "High nitrate";
     "Lead above safe limit"] /\
  (length issues <= 9)%nat.
Proof.
  intros issues. subst issues. unfold score_and_infer; cbn [issues_found].
  rewrite run_rules_issues. generalize (read_locals float_of_str r).
  intros l.
  split; [apply (flat_map_triggered_sublist issue l rule_table)|].
  rewrite triggered_rule_table, !all_issues_app, !length_app.
  pose proof (sublist_length_le _ _
                (flat_map_triggered_sublist issue l symptom_table)) as Hs.
  pose proof (sublist_length_le _ _
                (flat_map_triggered_sublist issue l pH_table)) as Hp.
  pose proof (sublist_length_le _ _
                (flat_map_triggered_sublist issue l contaminant_table)) as Hc.
  change (length (flat_map issue symptom_table)) with 0%nat in Hs.
  change (length (flat_map issue pH_table)) with 1%nat in Hp.
  change (length (flat_map issue contaminant_table)) with 7%nat in Hc.
  assert (length (all_issues (triggered l turbidity_table)) <= 1)%nat as Ht.
  { unfold triggered; simpl.
    destruct (PrimFloat.ltb 30 (turb l)), (PrimFloat.ltb 5 (turb l)),
      (PrimFloat.ltb 1 (turb l)); simpl; lia. }
  unfold all_issues in *. lia.
Qed.

Lemma fired_rule_points l table rl :
  Forall (fun rl => 0 <= points rl) table ->
  In rl table -> fires rl l = true ->
  points rl <= total_points (triggered l table).
Proof.
  induction 1 as [|r0 t Hr0 Ht IH]; simpl; intros Hin Hf; [destruct Hin|].
  pose proof (total_points_triggered_nonneg l t Ht) as Hnn.
  destruct Hin as [-> | Hin].
  - rewrite Hf. simpl. lia.
  - specialize (IH Hin Hf). destruct (fires r0 l); simpl; lia.
Qed.

(** A reported issue brings the points of its row. *)
Lemma issue_row_points l n x :
  (n < length rule_table)%nat ->
  x ∈ issue (nth n rule_table (Rule (fun _ => false) 0 [] [])) ->
  x ∈ acc_issues (run_rules l) ->
  points (nth n rule_table (Rule (fun _ => false) 0 [] []))
  <= acc_score (run_rules l).
Proof.
  intros Hn Hrow Hx. apply (issue_iff_row l n x Hn Hrow) in Hx.
  rewrite run_rules_score.
  apply fired_rule_points; [apply rule_points_nonneg | | exact Hx].
  apply nth_In, Hn.
Qed.

(** A report with a severe issue (E. coli, coliforms, arsenic or lead) is
    never at risk level "Low": its score is at least 3. *)
Theorem severe_issue_never_low (r : Report.t) (x : string) :
  x ∈ severe_flags ->
  x ∈ issues_found (score_and_infer float_of_str r) ->
  3 <= score (score_and_infer float_of_str r) /\
  risk_level (score_and_infer float_of_str r) <> "Low".
Proof.
  unfold score_and_infer; cbn [issues_found score risk_level].
  generalize (read_locals float_of_str r). intros l Hsev Hx.
  assert (3 <= acc_score (run_rules l)) as Hscore.
  { unfold severe_flags in Hsev.
    rewrite !elem_of_cons, elem_of_nil in Hsev.
    destruct Hsev as [-> | [-> | [-> | [-> | []]]]].
    - pose proof (issue_row_points l 9 _
                    ltac:(apply Nat.ltb_lt; reflexivity) ltac:(left) Hx) as H.
      change (5 <= acc_score (run_rules l)) in H. lia.
    - pose proof (issue_row_points l 12 _
                    ltac:(apply Nat.ltb_lt; reflexivity) ltac:(left) Hx) as H.
      change (4 <= acc_score (run_rules l)) in H. lia.
    - pose proof (issue_row_points l 15 _
                    ltac:(apply Nat.ltb_lt; reflexivity) ltac:(left) Hx) as H.
      change (4 <= acc_score (run_rules l)) in H. lia.
    - pose proof (issue_row_points l 10 _
                    ltac:(apply Nat.ltb_lt; reflexivity) ltac:(left) Hx) as H.
      change (3 <= acc_score (run_rules l)) in H. lia. }
  split; [exact Hscore|]. unfold risk_bucket.
  destruct (Z.leb_spec 6 (acc_score (run_rules l))); [discriminate|].
  destruct (Z.leb_spec 3 (acc_score (run_rules l))); [discriminate | lia].
Qed.

(** The de-duplication loop never drops anything: the rules and the
    coupling checks already emit each disease once. *)
Theorem likely_diseases_as_emitted (r : Report.t) :
  likely_diseases (score_and_infer float_of_str r)
  = diseases_emitted float_of_str r.
Proof.
  unfold score_and_infer; cbn [likely_diseases].
  apply dedup_NoDup_id, diseases_emitted_NoDup.
Qed.

(** *** Diseases *)

Lemma ensure_disease_elem_iff d x a :
  x ∈ acc_diseases (ensure_disease d a) <-> x ∈ acc_diseases a \/ x = d.
Proof.
  split; [apply ensure_disease_only|].
  intros [Hx | ->]; [apply ensure_disease_keeps, Hx | apply ensure_disease_elem].
Qed.

Lemma hint_iff_row l n x :
  (n < length rule_table)%nat ->
  x ∈ hints (nth n rule_table (Rule (fun _ => false) 0 [] [])) ->
  (x ∈ acc_diseases (water_rules l (symptom_rules l acc0))
   <-> fires (nth n rule_table (Rule (fun _ => false) 0 [] [])) l = true).
Proof.
  intros Hn Hx. rewrite rules_as_table. unfold effect.
  cbn [acc_diseases acc0 app].
  apply flat_map_triggered_iff; [apply all_hints_NoDup | | exact Hx].
  apply nth_In, Hn.
Qed.

(** When the diseases of the E. coli and coliform checks and of the two
    coupling checks are listed. *)
Theorem coupled_disease_listed_iff (r : Report.t) :
  let l := read_locals float_of_str r in
  let diseases := likely_diseases (score_and_infer float_of_str r) in
  let e := PrimFloat.ltb 0 (ecoli l) in
  let c := PrimFloat.ltb 0 (coliforms l) in
  let diarrhea_coupled :=
    (contains "diarrhea" (stext l)
     && (e || c || PrimFloat.ltb 5 (turb l)))%bool in
  let jaundice_coupled := (contains "jaundice" (stext l) && (c || e))%bool in
  ("Diarrhea" ∈ diseases <-> e = true) /\
  ("Cholera" ∈ diseases <-> (e || diarrhea_coupled)%bool = true) /\
  ("Typhoid" ∈ diseases <-> (e || diarrhea_coupled)%bool = true) /\
  ("Gastroenteritis" ∈ diseases <-> (c || diarrhea_coupled)%bool = true) /\
  ("Hepatitis A" ∈ diseases <-> (c || jaundice_coupled)%bool = true).
Proof.
  intros l diseases e c dc jc. subst diseases.
  unfold score_and_infer; cbn [likely_diseases]. fold l.
  assert (He : forall x, x ∈ ["Diarrhea"; "Cholera"; "Typhoid"] ->
             (x ∈ acc_diseases (water_rules l (symptom_rules l acc0))
              <-> e = true)).
  { intros x Hx. apply (hint_iff_row l 9);
      [apply Nat.ltb_lt; reflexivity | exact Hx]. }
  assert (Hc : forall x, x ∈ ["Gastroenteritis"; "Hepatitis A"] ->
             (x ∈ acc_diseases (water_rules l (symptom_rules l acc0))
              <-> c = true)).
  { intros x Hx. apply (hint_iff_row l 10);
      [apply Nat.ltb_lt; reflexivity | exact Hx]. }
  pose proof (He "Diarrhea" ltac:(rewrite !elem_of_cons; auto)) as Hd.
  pose proof (He "Cholera" ltac:(rewrite !elem_of_cons; auto)) as Hch.
  pose proof (He "Typhoid" ltac:(rewrite !elem_of_cons; auto)) as Hty.
  pose proof (Hc "Gastroenteritis" ltac:(rewrite !elem_of_cons; auto)) as Hga.
  pose proof (Hc "Hepatitis A" ltac:(rewrite !elem_of_cons; auto)) as Hhe.
  clear He Hc.
  unfold run_rules. revert Hd Hch Hty Hga Hhe.
  generalize (water_rules l (symptom_rules l acc0)). intros a Hd Hch Hty Hga Hhe.
  unfold coupling_rules, SAFE.turbidity_max. fold e c. fold dc.
  change (contains "jaundice" (stext l) && (c || e))%bool with jc.
  destruct dc, jc; rewrite !dedup_elem, ?ensure_disease_elem_iff,
    Hd, Hch, Hty, Hga, Hhe; destruct e, c; simpl;
    (split_and!; split; intros H; try reflexivity; auto;
     repeat match type of H with
            | _ \/ _ => destruct H as [H | H]
            end; try discriminate; auto 6).
Qed.

(** *** Symptom text *)

Lemma lower_ascii_idem c : lower_ascii (lower_ascii c) = lower_ascii c.
Proof. destruct c as [[] [] [] [] [] [] [] []]; reflexivity. Qed.

Lemma lower_idem s : lower (lower s) = lower s.
Proof.
  induction s as [|c s IH]; simpl; [reflexivity|].
  rewrite lower_ascii_idem, IH. reflexivity.
Qed.

Lemma stext_with_symptoms s r :
  stext (read_locals float_of_str (with_symptoms (Some s) r)) = lower s.
Proof. simpl. destruct s; reflexivity. Qed.

(** Matching is case-insensitive: two symptom texts that agree up to the
    case of their letters give the same result. *)
Theorem symptoms_case_insensitive (r : Report.t) (s1 s2 : string) :
  lower s1 = lower s2 ->
  score_and_infer float_of_str (with_symptoms (Some s1) r)
  = score_and_infer float_of_str (with_symptoms (Some s2) r).
Proof.
  intros H. unfold score_and_infer.
  assert (read_locals float_of_str (with_symptoms (Some s1) r)
          = read_locals float_of_str (with_symptoms (Some s2) r)) as ->;
    [|reflexivity].
  pose proof (stext_with_symptoms s1 r) as H1.
  pose proof (stext_with_symptoms s2 r) as H2.
  unfold read_locals in *. cbn [stext] in H1, H2. rewrite H1, H2, H.
  reflexivity.
Qed.

Lemma append_assoc (a b c : string) :
  ((a ++ b) ++ c)%string = (a ++ b ++ c)%string.
Proof.
  induction a as [|x a IH]; [reflexivity|].
  rewrite !append_cons, IH. reflexivity.
Qed.

(** The "vomiting" test is redundant: a text that contains "vomiting"
    contains "vomit", so the third symptom check fires exactly on "vomit"
    or "nausea". *)
Theorem vomiting_keyword_redundant (s : string) :
  contains "vomiting" s = true ->
  contains "vomit" s = true /\
  (contains "vomit" s || contains "vomiting" s || contains "nausea" s)%bool
  = (contains "vomit" s || contains "nausea" s)%bool.
Proof.
  intros H. assert (contains "vomit" s = true) as Hv.
  { apply contains_spec in H as (pre & post & ->). apply contains_spec.
    exists pre, ("ing" ++ post)%string. reflexivity. }
  rewrite Hv. split; reflexivity.
Qed.

(** *** NaN readings *)

Lemma is_nan_not_ltb x c :
  PrimFloat.is_nan x = true ->
  PrimFloat.ltb c x = false /\ PrimFloat.ltb x c = false.
Proof.
  unfold PrimFloat.is_nan. rewrite negb_true_iff, FloatAxioms.eqb_spec,
    !FloatAxioms.ltb_spec.
  unfold SFeqb, SFltb. destruct (Prim2SF x) as [s|s| |s m e]; simpl.
  - discriminate.
  - destruct s; discriminate.
  - intros _. destruct (Prim2SF c); split; reflexivity.
  - destruct s; rewrite Z.compare_refl;
      change (Pos.compare_cont Eq m m) with (m ?= m)%positive;
      rewrite Pos.compare_refl; discriminate.
Qed.

(** A reading that is NaN (the text "nan", say) fails no threshold: with
    all readings NaN only the symptoms score, and no issue and no disease
    is reported. *)
Theorem nan_readings_trigger_nothing (r : Report.t) :
  readings_all_nan (read_locals float_of_str r) ->
  let res := score_and_infer float_of_str r in
  score res
    = total_points (triggered (read_locals float_of_str r) symptom_table) /\
  issues_found res = [] /\ likely_diseases res = [].
Proof.
  unfold score_and_infer; cbn [score issues_found likely_diseases].
  generalize (read_locals float_of_str r).
  intros l (HpH & Ht & He & Hc & Hh & Ha & Hf & Hn & Hl).
  assert (water_rules l (symptom_rules l acc0) = symptom_rules l acc0) as Hw.
  { unfold water_rules, lead_rule, nitrate_rule, fluoride_rule, arsenic_rule,
      hpc_rule, coliforms_rule, ecoli_rule, turbidity_rule, pH_rule.
    rewrite (proj1 (is_nan_not_ltb _ SAFE.pH_max HpH)),
      (proj2 (is_nan_not_ltb _ SAFE.pH_min HpH)),
      (proj1 (is_nan_not_ltb _ 30 Ht)),
      (proj1 (is_nan_not_ltb _ SAFE.turbidity_max Ht)),
      (proj1 (is_nan_not_ltb _ SAFE.turbidity_ideal Ht)),
      (proj1 (is_nan_not_ltb _ 0 He)), (proj1 (is_nan_not_ltb _ 0 Hc)),
      (proj1 (is_nan_not_ltb _ SAFE.hpc_max Hh)),
      (proj1 (is_nan_not_ltb _ SAFE.arsenic_max Ha)),
      (proj1 (is_nan_not_ltb _ SAFE.fluoride_max Hf)),
      (proj1 (is_nan_not_ltb _ SAFE.nitrate_max Hn)),
      (proj1 (is_nan_not_ltb _ SAFE.lead_max Hl)).
    reflexivity. }
  assert (coupling_rules l (symptom_rules l acc0) = symptom_rules l acc0) as Hcpl.
  { unfold coupling_rules.
    rewrite (proj1 (is_nan_not_ltb _ SAFE.turbidity_max Ht)),
      (proj1 (is_nan_not_ltb _ 0 He)), (proj1 (is_nan_not_ltb _ 0 Hc)).
    simpl. rewrite !andb_false_r. reflexivity. }
  unfold run_rules. rewrite Hw, Hcpl, symptom_rules_table.
  unfold effect; cbn [acc_score acc_issues acc_diseases acc0 app].
  assert (all_issues (triggered l symptom_table) = []) as ->.
  { pose proof (flat_map_triggered_sublist issue l symptom_table) as H.
    apply sublist_nil_r in H. exact H. }
  assert (all_hints (triggered l symptom_table) = []) as ->.
  { pose proof (flat_map_triggered_sublist hints l symptom_table) as H.
    apply sublist_nil_r in H. exact H. }
  split_and!; reflexivity.
Qed.

(** *** Worse water never scores lower *)

Lemma reading_at_most_above c x1 x2 :
  reading_at_most x1 x2 ->
  PrimFloat.ltb c x1 = true -> PrimFloat.ltb c x2 = true.
Proof.
  intros [Hle | Hnan] H.
  - eapply FloatFacts.ltb_leb_trans; eassumption.
  - rewrite (proj1 (is_nan_not_ltb x1 c Hnan)) in H. discriminate H.
Qed.

Lemma readings_at_most_superset l1 l2 :
  readings_at_most l1 l2 -> conditions_superset l1 l2.
Proof.
  intros (Hs & HpH & Ht & He & Hc & Hh & Ha & Hf & Hn & Hl) rl Hin.
  apply list_elem_of_In in Hin. simpl in Hin.
  repeat destruct Hin as [<- | Hin]; try destruct Hin; cbn [fires];
    rewrite <- ?Hs, <- ?HpH; try (intros H; exact H);
    eapply reading_at_most_above; eassumption.
Qed.

(** With the same symptom text and the same pH, a report whose other
    readings are each [<=] the corresponding reading of a second report (or
    NaN) never scores higher than the second.  The comparison is the IEEE
    one: it does not hold against a NaN in the second report, and there the
    score can drop (turbidity 40 against NaN: 4 against 0). *)
Theorem score_monotone_in_readings (r1 r2 : Report.t) :
  readings_at_most (read_locals float_of_str r1)
                   (read_locals float_of_str r2) ->
  score (score_and_infer float_of_str r1)
  <= score (score_and_infer float_of_str r2).
Proof.
  intros H. unfold score_and_infer; cbn [score]. rewrite !run_rules_score.
  apply total_points_mono_bare, readings_at_most_superset, H.
Qed.

End ScorerMore.


(** * The turbidity chain *)

Section TurbidityChain.

Variable float_of_str : string -> option float.

Lemma turbidity_table_outcome l :
  total_points (triggered l turbidity_table) = turbidity_points_of (turb l) /\
  all_issues (triggered l turbidity_table) = turbidity_issue_of (turb l) /\
  all_hints (triggered l turbidity_table) = turbidity_hint_of (turb l).
Proof.
  unfold triggered, turbidity_points_of, turbidity_issue_of,
    turbidity_hint_of; simpl.
  destruct (PrimFloat.ltb 30 (turb l)), (PrimFloat.ltb 5 (turb l)),
    (PrimFloat.ltb 1 (turb l)); split_and!; reflexivity.
Qed.

(** Two concrete lists of texts have nothing in common. *)
Ltac no_common_text H H' :=
  apply list_elem_of_In in H; apply list_elem_of_In in H';
  simpl in H, H';
  repeat (destruct H as [H | H]; [subst|]); try destruct H;
  repeat (destruct H' as [H' | H']; [try discriminate H'|]);
  try destruct H'.

Lemma no_turbidity_issue_elsewhere l x :
  x ∈ all_issues (triggered l (symptom_table ++ pH_table))
      ++ all_issues (triggered l contaminant_table) ->
  x ∉ turbidity_issues.
Proof.
  intros [Hx | Hx]%elem_of_app Hturb;
    apply all_issues_triggered_elem in Hx; no_common_text Hx Hturb.
Qed.

Lemma turbidity_hint_only_from_chain l x :
  x ∈ turbidity_hints ->
  (x ∈ acc_diseases (run_rules l) <-> x ∈ turbidity_hint_of (turb l)).
Proof.
  intros Hx. unfold run_rules. split.
  - intros [H | H]%coupling_rules_only; [|no_common_text H Hx].
    rewrite rules_as_table in H. unfold effect in H.
    cbn [acc_diseases acc0 app] in H.
    rewrite triggered_rule_table, !all_hints_app, !elem_of_app in H.
    destruct (turbidity_table_outcome l) as (_ & _ & <-).
    destruct H as [H | [H | [H | H]]]; [| | exact H |];
      apply all_hints_triggered_elem in H; no_common_text H Hx.
  - intros H. apply coupling_rules_keeps. rewrite rules_as_table.
    unfold effect. cbn [acc_diseases acc0 app].
    rewrite triggered_rule_table, !all_hints_app, !elem_of_app.
    destruct (turbidity_table_outcome l) as (_ & _ & ->). auto.
Qed.

Lemma filter_none (f : string -> bool) (l : list string) :
  (forall x, x ∈ l -> f x = false) -> List.filter f l = [].
Proof.
  induction l as [|y l IH]; intros H; [reflexivity|]. simpl.
  rewrite (H y ltac:(left)). apply IH. intros x Hx. apply H. right. exact Hx.
Qed.

(** C5. The three turbidity checks are mutually exclusive, the first
    matching branch winning (above 30, else above 5, else above 1).  For
    every report, against the same report without a turbidity reading: the
    score is higher by the points of that one branch; the issues are the
    same with the issue of that one branch put in, and hold no other
    turbidity issue, so at most one turbidity issue is reported; and a
    turbidity disease hint is listed exactly when it is the hint of that
    branch.  At turbidity 40 this is the "> 30" branch alone: 4 points
    more, "Very high turbidity" once, and nothing of the "> 5" and "> 1"
    branches. *)
Theorem turbidity_checks_exclusive (r : Report.t) :
  let t := turb (read_locals float_of_str r) in
  let res := score_and_infer float_of_str r in
  let res0 := score_and_infer float_of_str (with_turbidity PNone r) in
  score res = score res0 + turbidity_points_of t /\
  (exists pre post,
      issues_found res0 = pre ++ post /\
      issues_found res = pre ++ turbidity_issue_of t ++ post /\
      (forall x, x ∈ pre ++ post -> x ∉ turbidity_issues)) /\
  (length (List.filter (fun x => mem x turbidity_issues) (issues_found res))
   <= 1)%nat /\
  (forall x, x ∈ turbidity_issues ->
     (x ∈ issues_found res <-> x ∈ turbidity_issue_of t)) /\
  (forall x, x ∈ turbidity_hints ->
     (x ∈ likely_diseases res <-> x ∈ turbidity_hint_of t)) /\
  (t = 40%float ->
   score res = score res0 + 4 /\
   occurrences "Very high turbidity" (issues_found res) = 1%nat /\
   ("High turbidity" ∉ issues_found res) /\
   ("Turbidity above ideal" ∉ issues_found res) /\
   ("Pathogens may survive; diarrhea risk" ∉ likely_diseases res)).
Proof.
  intros t res res0.
  pose proof (other_tables_ignore_turbidity float_of_str PNone r)
    as (Hs & Hp & Hc).
  cbv zeta in Hs, Hp, Hc.
  assert (Hi : issues_found res
               = all_issues (triggered (read_locals float_of_str r)
                               (symptom_table ++ pH_table))
                 ++ turbidity_issue_of t
                 ++ all_issues (triggered (read_locals float_of_str r)
                                  contaminant_table)).
  { subst res t. unfold score_and_infer; cbn [issues_found].
    rewrite run_rules_issues, triggered_rule_table, app_assoc,
      <- triggered_app, !all_issues_app.
    destruct (turbidity_table_outcome (read_locals float_of_str r))
      as (_ & -> & _). reflexivity. }
  assert (Hi0 : issues_found res0
                = all_issues (triggered (read_locals float_of_str r)
                                (symptom_table ++ pH_table))
                  ++ all_issues (triggered (read_locals float_of_str r)
                                   contaminant_table)).
  { subst res0. unfold score_and_infer; cbn [issues_found].
    rewrite run_rules_issues, triggered_rule_table, Hs, Hp, Hc.
    change (triggered (read_locals float_of_str (with_turbidity PNone r))
              turbidity_table) with (@nil rule).
    rewrite app_assoc, <- triggered_app, !all_issues_app. reflexivity. }
  pose proof (no_turbidity_issue_elsewhere (read_locals float_of_str r))
    as Hother.
  assert (Hbranch : forall x, x ∈ turbidity_issue_of t -> x ∈ turbidity_issues).
  { intros x. unfold turbidity_issue_of, turbidity_issues.
    destruct (PrimFloat.ltb 30 t), (PrimFloat.ltb 5 t), (PrimFloat.ltb 1 t);
      rewrite !elem_of_cons, ?elem_of_nil; tauto. }
  split_and!.
  - subst res res0 t. unfold score_and_infer; cbn [score].
    rewrite !run_rules_score, !triggered_rule_table, Hs, Hp, Hc.
    change (triggered (read_locals float_of_str (with_turbidity PNone r))
              turbidity_table) with (@nil rule).
    destruct (turbidity_table_outcome (read_locals float_of_str r))
      as (<- & _ & _).
    rewrite !total_points_app. simpl. lia.
  - eexists _, _. split_and!; [exact Hi0 | exact Hi | exact Hother].
  - rewrite Hi, !List.filter_app, !length_app.
    rewrite (filter_none _ (all_issues (triggered _ (symptom_table ++ pH_table)))),
      (filter_none _ (all_issues (triggered _ contaminant_table))).
    + cbn [length]. rewrite Nat.add_0_r.
      unfold turbidity_issue_of.
      destruct (PrimFloat.ltb 30 t), (PrimFloat.ltb 5 t),
        (PrimFloat.ltb 1 t); simpl; lia.
    + intros x Hx. apply mem_false, Hother, elem_of_app. right. exact Hx.
    + intros x Hx. apply mem_false, Hother, elem_of_app. left. exact Hx.
  - intros x Hx. rewrite Hi, !elem_of_app. split; [|tauto].
    intros [H | [H | H]]; [| exact H |]; exfalso;
      apply (Hother x); [apply elem_of_app; left; exact H | exact Hx
                         | apply elem_of_app; right; exact H | exact Hx].
  - intros x Hx. subst res t. unfold score_and_infer; cbn [likely_diseases].
    rewrite dedup_elem. apply turbidity_hint_only_from_chain, Hx.
  - intros H40. subst t res res0.
    destruct (turbidity_40_first_branch_only float_of_str r H40)
      as (H1 & _ & H2 & H3 & H4 & H5).
    split_and!; assumption.
Qed.

End TurbidityChain.

(** * Further properties of the aggregator *)

Section AggregatorMore.

Variable float_of_str : string -> option float.

Lemma fold_incr_filter (p : string -> bool) keys (c : Counter) :
  fold_left (fun c k => if p k then incr k c else c) keys c
  = fold_left (fun c k => incr k c) (List.filter p keys) c.
Proof.
  revert c. induction keys as [|k keys IH]; intros c; simpl; [reflexivity|].
  rewrite IH. destruct (p k); reflexivity.
Qed.

Lemma tally_fold_cond (p : string -> bool) loc' keys
    (m : gmap string Counter) loc :
  fold_left (fun m k => if p k then tally loc' k m else m) keys m !!! loc
  = if decide (loc' = loc)
    then fold_left (fun c k => incr k c) (List.filter p keys) (m !!! loc)
    else m !!! loc.
Proof.
  revert m. induction keys as [|k keys IH]; intros m; simpl.
  - destruct (decide (loc' = loc)); reflexivity.
  - rewrite IH. destruct (p k); simpl; [|reflexivity].
    rewrite tally_lookup. destruct (decide (loc' = loc)); reflexivity.
Qed.

Lemma reports_at_snoc loc reports r :
  reports_at loc (reports ++ [r])
  = reports_at loc reports
    ++ (if decide (report_location r = loc) then [r] else []).
Proof.
  unfold reports_at. rewrite List.filter_app. f_equal. cbn [List.filter].
  destruct (String.eqb_spec (report_location r) loc),
    (decide (report_location r = loc)); congruence.
Qed.

(** After the loop: the risk and symptom counters of each location, and
    [per_report]. *)
Lemma aggregate_tallies_more reports loc :
  let st := fold_left (aggregate_step float_of_str) reports tallies0 in
  loc_risk st !!! loc
    = Counter_of (risk_levels_at float_of_str loc reports) /\
  loc_symptoms st !!! loc
    = Counter_of (flat_map symptom_keys_of (reports_at loc reports)) /\
  per_report st = map (scored_of float_of_str) reports.
Proof.
  induction reports as [|r reports IH] using rev_ind.
  - cbn [fold_left tallies0 loc_risk loc_symptoms per_report].
    rewrite !lookup_total_empty. split_and!; reflexivity.
  - cbv zeta in *. destruct IH as (IHr & IHs & IHp).
    rewrite fold_left_app. cbn [fold_left]. unfold aggregate_step at 1 3 5.
    cbn [loc_risk loc_symptoms per_report].
    rewrite tally_lookup, tally_fold_cond, IHr, IHs, IHp.
    unfold risk_levels_at. rewrite reports_at_snoc, map_app, flat_map_app.
    change (or_text (Report.location r) "Unknown") with (report_location r).
    destruct (decide (report_location r = loc));
      cbn [flat_map map]; rewrite ?app_nil_r.
    + rewrite !Counter_of_app, map_app. split_and!; reflexivity.
    + rewrite map_app. split_and!; reflexivity.
Qed.

Lemma aggregate_per_report reports :
  (aggregate_location_patterns float_of_str reports).1
  = map (scored_of float_of_str) reports.
Proof.
  unfold aggregate_location_patterns. cbn [fst].
  apply (aggregate_tallies_more reports "").
Qed.

(** [per_report] has one entry for each report, in order: the report with
    its scorer result. *)
Theorem per_report_in_order (reports : list Report.t) :
  (aggregate_location_patterns float_of_str reports).1
  = map (scored_of float_of_str) reports.
Proof. apply aggregate_per_report. Qed.

Lemma locations_elem reports loc :
  loc ∈ locations (map (scored_of float_of_str) reports) <->
  (reports = [] /\ loc = "Unknown") \/
  (exists r, r ∈ reports /\ report_location r = loc).
Proof.
  destruct reports as [|r0 reports].
  - simpl. rewrite elem_of_singleton. split.
    + intros ->. left. auto.
    + intros [[_ ->] | (r & Hr & _)]; [reflexivity | inversion Hr].
  - change (locations (map (scored_of float_of_str) (r0 :: reports)))
      with (list_to_set
              (map (fun pr => location (derived pr))
                   (map (scored_of float_of_str) (r0 :: reports)))
            : gset string).
    rewrite map_map, elem_of_list_to_set, list_elem_of_In, in_map_iff.
    change (fun x => location (derived (scored_of float_of_str x)))
      with report_location.
    split.
    + intros (r & <- & Hr). right. exists r. split; [|reflexivity].
      apply list_elem_of_In, Hr.
    + intros [[H _] | (r & Hr & <-)]; [discriminate|].
      exists r. split; [reflexivity | apply list_elem_of_In, Hr].
Qed.

Lemma summary_lookup reports loc summ :
  (aggregate_location_patterns float_of_str reports).2 !! loc = Some summ <->
  loc ∈ locations (map (scored_of float_of_str) reports) /\
  summ = summarize
           (fold_left (aggregate_step float_of_str) reports tallies0) loc.
Proof.
  unfold aggregate_location_patterns. cbn [snd].
  rewrite lookup_set_to_map by (intros y y' _ _ Hy; exact Hy).
  destruct (aggregate_tallies_more reports loc) as (_ & _ & ->).
  split.
  - intros (loc' & Hin & Heq). injection Heq as -> <-. auto.
  - intros [Hin ->]. exists loc. auto.
Qed.

Lemma summary_dom reports loc :
  is_Some ((aggregate_location_patterns float_of_str reports).2 !! loc) <->
  loc ∈ locations (map (scored_of float_of_str) reports).
Proof.
  split.
  - intros [summ H]. apply summary_lookup in H as [H _]. exact H.
  - intros H. eexists. apply summary_lookup. split; [exact H | reflexivity].
Qed.

(** The summary has an entry exactly for the locations of the reports,
    "Unknown" standing for a missing or empty location; with no report at
    all it has the single entry "Unknown". *)
Theorem summary_keys (reports : list Report.t) (loc : string) :
  is_Some ((aggregate_location_patterns float_of_str reports).2 !! loc) <->
  (reports = [] /\ loc = "Unknown") \/
  (exists r, r ∈ reports /\ report_location r = loc).
Proof. rewrite summary_dom. apply locations_elem. Qed.

(** [risk_counts] of a location counts, for each level, the reports filed
    there at that level. *)
Theorem risk_counts_tally (reports : list Report.t) (loc : string)
    (summ : LocationSummary) (level : string) :
  (aggregate_location_patterns float_of_str reports).2 !! loc = Some summ ->
  get (risk_counts summ) level
  = occurrences level (risk_levels_at float_of_str loc reports).
Proof.
  intros [_ ->]%summary_lookup. unfold summarize. cbn [risk_counts].
  destruct (aggregate_tallies_more reports loc) as (-> & _).
  apply get_Counter_of.
Qed.

Lemma SYMPTOM_KEYS_NoDup : NoDup SYMPTOM_KEYS.
Proof. apply (bool_decide_unpack _). vm_compute. reflexivity. Qed.

Lemma occurrences_NoDup x (l : list string) :
  NoDup l -> occurrences x l = if decide (x ∈ l) then 1%nat else 0%nat.
Proof.
  intros Hnd. destruct (decide (x ∈ l)) as [Hin|Hout].
  - apply occurrences_once; assumption.
  - unfold occurrences. apply count_occ_not_In.
    intros H. apply Hout, list_elem_of_In, H.
Qed.

Lemma symptom_keys_of_elem key r :
  key ∈ symptom_keys_of r <->
  key ∈ SYMPTOM_KEYS /\ contains key (report_text r) = true.
Proof.
  unfold symptom_keys_of. rewrite !list_elem_of_In, List.filter_In.
  reflexivity.
Qed.

Lemma symptom_keys_of_NoDup r : NoDup (symptom_keys_of r).
Proof.
  eapply sublist_NoDup; [apply SYMPTOM_KEYS_NoDup|].
  unfold symptom_keys_of. generalize SYMPTOM_KEYS. intros keys.
  induction keys as [|k keys IH]; simpl; [constructor|].
  destruct (contains k (report_text r));
    [apply sublist_skip | apply sublist_cons]; exact IH.
Qed.

Lemma occurrences_app x (l1 l2 : list string) :
  occurrences x (l1 ++ l2) = (occurrences x l1 + occurrences x l2)%nat.
Proof. apply count_occ_app. Qed.

(** [symptom_trends] of a location counts, for each keyword, the reports
    filed there whose text contains it: once per report, however often the
    keyword occurs in the text. *)
Theorem symptom_trends_tally (reports : list Report.t) (loc : string)
    (summ : LocationSummary) (key : string) :
  (aggregate_location_patterns float_of_str reports).2 !! loc = Some summ ->
  get (symptom_trends summ) key
  = if decide (key ∈ SYMPTOM_KEYS) then symptom_hits key loc reports
    else 0%nat.
Proof.
  intros [_ ->]%summary_lookup. unfold summarize. cbn [symptom_trends].
  destruct (aggregate_tallies_more reports loc) as (_ & -> & _).
  rewrite get_Counter_of. unfold symptom_hits.
  generalize (reports_at loc reports). intros rs.
  induction rs as [|r rs IH]; simpl.
  - destruct (decide (key ∈ SYMPTOM_KEYS)); reflexivity.
  - rewrite occurrences_app, IH,
      (occurrences_NoDup _ _ (symptom_keys_of_NoDup r)).
    destruct (decide (key ∈ symptom_keys_of r)) as [Hin|Hout].
    + apply symptom_keys_of_elem in Hin as [Hk Hc]. rewrite Hc.
      destruct (decide (key ∈ SYMPTOM_KEYS)); [reflexivity | contradiction].
    + destruct (decide (key ∈ SYMPTOM_KEYS)) as [Hk|Hk]; [|reflexivity].
      destruct (contains key (report_text r)) eqn:Hc; [|reflexivity].
      exfalso. apply Hout, symptom_keys_of_elem. auto.
Qed.

(** *** A location with one report *)

Lemma Counter_of_NoDup (s : list string) :
  NoDup s -> Counter_of s = map (fun k => (k, 1%nat)) s.
Proof.
  induction s as [|k s IH] using rev_ind; intros Hnd; [reflexivity|].
  apply NoDup_app in Hnd as (Hs & Hk & _).
  rewrite Counter_of_snoc, (IH Hs), map_app. cbn [map].
  assert (k ∉ s) as Hout by (intros Hin; apply (Hk k Hin); left).
  clear IH Hs Hk. induction s as [|y s IH]; [reflexivity|].
  cbn [map incr app]. destruct (String.eqb_spec k y) as [->|Hne].
  - exfalso. apply Hout. left.
  - rewrite IH; [reflexivity|]. intros Hin. apply Hout. right. exact Hin.
Qed.

Lemma sort_desc_ones (s : list string) :
  sort_desc (map (fun k => (k, 1%nat)) s) = map (fun k => (k, 1%nat)) s.
Proof.
  induction s as [|k s IH]; [reflexivity|].
  cbn [map sort_desc foldr]. fold (sort_desc (map (fun k => (k, 1%nat)) s)).
  rewrite IH. destruct s; reflexivity.
Qed.

Lemma most_common_NoDup (s : list string) :
  NoDup s -> (most_common 5 (Counter_of s)).*1 = take 5 s.
Proof.
  intros Hnd. unfold most_common.
  rewrite (Counter_of_NoDup s Hnd), sort_desc_ones, fmap_take.
  f_equal. induction s as [|k s IH]; [reflexivity|].
  apply NoDup_cons in Hnd as [_ Hnd]. csimpl. rewrite (IH Hnd). reflexivity.
Qed.

(** Where a single report was filed, the top issues and diseases are the
    first five of that report, in its order: a sixth issue, such as a lead
    finding after five others, is not among them. *)
Theorem single_report_top_five (reports : list Report.t) (loc : string)
    (r : Report.t) (summ : LocationSummary) :
  reports_at loc reports = [r] ->
  (aggregate_location_patterns float_of_str reports).2 !! loc = Some summ ->
  top_issues summ = take 5 (issues_found (score_and_infer float_of_str r)) /\
  likely_diseases_top summ
  = take 5 (likely_diseases (score_and_infer float_of_str r)).
Proof.
  intros Hat [_ ->]%summary_lookup. unfold summarize.
  cbn [top_issues likely_diseases_top].
  destruct (aggregate_tallies float_of_str reports loc) as [-> ->].
  assert (at_location float_of_str loc reports
          = [score_and_infer float_of_str r]) as Hres.
  { unfold at_location. unfold reports_at in Hat. revert Hat.
    generalize reports at 1 2. intros rs.
    induction rs as [|r0 rs IH] in r |- *; [discriminate|].
    cbn [map List.filter].
    change (location (score_and_infer float_of_str r0))
      with (report_location r0).
    destruct (String.eqb (report_location r0) loc).
    - intros [= -> Hrs]. f_equal. clear IH.
      induction rs as [|r1 rs IH]; [reflexivity|].
      cbn [map List.filter] in *.
      change (location (score_and_infer float_of_str r1))
        with (report_location r1).
      destruct (String.eqb (report_location r1) loc); [discriminate|].
      apply IH, Hrs.
    - apply IH. }
  unfold issue_stream, disease_stream. rewrite Hres. cbn [flat_map].
  rewrite !app_nil_r. split; apply most_common_NoDup.
  - unfold score_and_infer; cbn [issues_found]. apply run_rules_issues_NoDup.
  - unfold score_and_infer; cbn [likely_diseases]. apply dedup_NoDup.
Qed.

(** With no report the result is an empty [per_report] and one summary,
    for "Unknown", with nothing in it. *)
Theorem aggregate_no_reports :
  aggregate_location_patterns float_of_str []
  = ([], {["Unknown" := empty_summary]}).
Proof. reflexivity. Qed.

End AggregatorMore.


(** * Further properties of the global verdict *)

Section VerdictMore.

Lemma div_eucl_multiple (q p : positive) :
  Z.div_eucl (Zpos p * Zpos q) (Zpos p) = (Zpos q, 0).
Proof.
  assert (Zpos p <> 0) as Hp by lia.
  pose proof (Z.div_mul (Zpos q) (Zpos p) Hp) as Hd.
  pose proof (Z.mod_mul (Zpos q) (Zpos p) Hp) as Hm.
  rewrite (Z.mul_comm (Zpos q)) in Hd, Hm.
  unfold Z.div, Z.modulo in Hd, Hm.
  destruct (Z.div_eucl (Zpos p * Zpos q) (Zpos p)) as [a b].
  simpl in Hd, Hm. congruence.
Qed.

(** [n / n] is 1.0. *)
Lemma true_div_same (p : positive) : true_div (Zpos p) (Zpos p) = 1%float.
Proof.
  unfold true_div, int_as_spec, SFdiv.
  assert (SFdiv_core_binary prec emax (Zpos p) 0 (Zpos p) 0
          = (9007199254740992, -53, loc_Exact)) as ->.
  { unfold SFdiv_core_binary. rewrite !Z.add_0_r, !Z.sub_diag.
    change (Z.min (fexp prec emax 0) 0) with (-53).
    change (0 - -53) with 53. cbv beta iota zeta.
    rewrite Z.shiftl_mul_pow2 by lia.
    change (2 ^ 53) with (Zpos 9007199254740992).
    change IntDef.Z.div_eucl with Z.div_eucl.
    rewrite div_eucl_multiple. unfold new_location.
    destruct (Z.even (Zpos p)); reflexivity. }
  vm_compute. reflexivity.
Qed.

(** [0 / n] is 0.0. *)
Lemma true_div_zero (p : positive) : true_div 0 (Zpos p) = 0%float.
Proof. reflexivity. Qed.

Lemma occurrences_all (x : string) (l : list string) :
  Forall (fun y => y = x) l -> occurrences x l = length l.
Proof.
  induction 1 as [|y l -> Hl IH]; [reflexivity|].
  unfold occurrences in *. simpl. destruct (string_dec x x); congruence.
Qed.

Lemma occurrences_none (x : string) (l : list string) :
  Forall (fun y => y <> x) l -> occurrences x l = 0%nat.
Proof.
  induction 1 as [|y l Hy Hl IH]; [reflexivity|].
  unfold occurrences in *. simpl. destruct (string_dec y x); congruence.
Qed.

Lemma clears_threshold_all prs level :
  prs <> [] ->
  Forall (fun y => y = level) (risk_levels prs) ->
  clears_threshold prs level = true.
Proof.
  intros Hne Hall. unfold clears_threshold.
  rewrite (occurrences_all _ _ Hall). unfold risk_levels.
  rewrite length_map. destruct prs as [|pr prs]; [congruence|].
  cbn [length]. rewrite Nat2Z.inj_succ. unfold Z.succ.
  destruct (Z.of_nat (length prs) + 1) eqn:E;
    [lia | | lia]. rewrite true_div_same. reflexivity.
Qed.

Lemma clears_threshold_none prs level :
  prs <> [] ->
  Forall (fun y => y <> level) (risk_levels prs) ->
  clears_threshold prs level = false.
Proof.
  intros Hne Hnone. unfold clears_threshold.
  rewrite (occurrences_none _ _ Hnone).
  destruct prs as [|pr prs]; [congruence|].
  cbn [length]. rewrite Nat2Z.inj_succ. unfold Z.succ.
  destruct (Z.of_nat (length prs) + 1) eqn:E;
    [lia | | lia]. reflexivity.
Qed.

(** The verdict is "No Data" exactly for the empty list, and otherwise one
    of "High", "Medium" and "Low". *)
Theorem verdict_no_data_iff (prs : list scored) :
  (overall_risk_from_reports prs = "No Data" <-> prs = []) /\
  (prs <> [] ->
   overall_risk_from_reports prs ∈ ["High"; "Medium"; "Low"]).
Proof.
  assert (prs <> [] ->
          overall_risk_from_reports prs ∈ ["High"; "Medium"; "Low"]) as H.
  { intros Hne. rewrite (overall_risk_nonempty _ Hne).
    destruct (clears_threshold prs "High"), (clears_threshold prs "Medium");
      rewrite !elem_of_cons; auto. }
  split; [|exact H]. split.
  - intros Hnd. destruct prs as [|pr prs]; [reflexivity|].
    specialize (H ltac:(discriminate)). rewrite Hnd in H.
    rewrite !elem_of_cons, elem_of_nil in H.
    destruct H as [? | [? | [? | []]]]; discriminate.
  - intros ->. reflexivity.
Qed.

(** Reports that are all at the same level get that level as verdict. *)
Theorem verdict_of_uniform_reports (prs : list scored) (level : string) :
  prs <> [] ->
  level ∈ ["High"; "Medium"; "Low"] ->
  Forall (fun y => y = level) (risk_levels prs) ->
  overall_risk_from_reports prs = level.
Proof.
  intros Hne Hlevel Hall. rewrite (overall_risk_nonempty _ Hne).
  rewrite !elem_of_cons, elem_of_nil in Hlevel.
  destruct Hlevel as [-> | [-> | [-> | []]]].
  - rewrite (clears_threshold_all _ _ Hne Hall). reflexivity.
  - rewrite (clears_threshold_all _ _ Hne Hall),
      (clears_threshold_none prs "High" Hne); [reflexivity|].
    eapply Forall_impl; [exact Hall|]. intros y ->. discriminate.
  - rewrite (clears_threshold_none prs "High" Hne),
      (clears_threshold_none prs "Medium" Hne); [reflexivity | |];
      (eapply Forall_impl; [exact Hall|]; intros y ->; discriminate).
Qed.

(** Without a High and without a Medium report the verdict is "Low". *)
Theorem verdict_low_without_high_or_medium (prs : list scored) :
  prs <> [] ->
  "High" ∉ risk_levels prs ->
  "Medium" ∉ risk_levels prs ->
  overall_risk_from_reports prs = "Low".
Proof.
  intros Hne Hh Hm. rewrite (overall_risk_nonempty _ Hne).
  rewrite (clears_threshold_none prs "High" Hne),
    (clears_threshold_none prs "Medium" Hne); [reflexivity | |];
    apply Forall_forall; intros y Hy ->; auto.
Qed.

(** The verdict depends on the risk levels only, and not on their order. *)
Theorem verdict_order_independent (prs prs' : list scored) :
  risk_levels prs ≡ₚ risk_levels prs' ->
  overall_risk_from_reports prs = overall_risk_from_reports prs'.
Proof.
  intros Hperm.
  assert (length prs = length prs') as Hlen.
  { rewrite <- (length_map (fun r => risk_level (derived r)) prs),
      <- (length_map (fun r => risk_level (derived r)) prs').
    apply Permutation_length, Hperm. }
  destruct prs as [|pr prs], prs' as [|pr' prs']; try discriminate;
    [reflexivity|].
  rewrite !overall_risk_nonempty by discriminate.
  unfold clears_threshold, occurrences. rewrite Hlen.
  rewrite !(Permutation_count_occ string_dec _ _) in Hperm.
  rewrite !Hperm. reflexivity.
Qed.

End VerdictMore.


(** * Properties of the request handler *)

Section HandlerFacts.

Variable float_of_str : string -> option float.

(** *** Sorting text *)

Lemma insert_text_perm x l : insert_text x l ≡ₚ x :: l.
Proof.
  induction l as [|y l IH]; simpl; [reflexivity|].
  destruct (String.leb x y); [reflexivity|].
  rewrite IH. apply Permutation_swap.
Qed.

Lemma sorted_text_perm l : sorted_text l ≡ₚ l.
Proof.
  induction l as [|x l IH]; simpl; [reflexivity|].
  rewrite insert_text_perm, IH. reflexivity.
Qed.

Lemma insert_text_sorted x l :
  Sorted (fun a b => String.leb a b = true) l ->
  Sorted (fun a b => String.leb a b = true) (insert_text x l).
Proof.
  induction l as [|y l IH]; simpl; intros Hs.
  - repeat constructor.
  - destruct (String.leb x y) eqn:E.
    + constructor; [exact Hs | constructor; exact E].
    + apply Sorted_inv in Hs as [Hs Hhd].
      constructor; [apply IH, Hs|].
      assert (String.leb y x = true) as Hyx.
      { destruct (String.leb_total x y) as [H | H]; congruence. }
      destruct l as [|z l]; simpl.
      * constructor. exact Hyx.
      * destruct (String.leb x z); constructor; [exact Hyx|].
        inversion Hhd; assumption.
Qed.

Lemma sorted_text_sorted l :
  Sorted (fun a b => String.leb a b = true) (sorted_text l).
Proof.
  induction l as [|x l IH]; simpl; [constructor|].
  apply insert_text_sorted, IH.
Qed.

(** Ascending and without repeats is strictly ascending. *)
Lemma Sorted_leb_NoDup_ltb l :
  Sorted (fun a b => String.leb a b = true) l -> NoDup l ->
  Sorted (fun a b => String.ltb a b = true) l.
Proof.
  induction 1 as [|x l Hl IH Hx]; intros Hnd; constructor.
  - apply IH. apply NoDup_cons in Hnd as [_ Hnd]. exact Hnd.
  - destruct Hx as [|y l Hxy]; constructor.
    apply NoDup_cons in Hnd as [Hx _].
    unfold String.leb, String.ltb in *.
    destruct (String.compare x y) eqn:E; try reflexivity; try discriminate.
    apply String.compare_eq_iff in E. subst. exfalso. apply Hx. left.
Qed.

(** *** The handler *)

Lemma analyze_array reports :
  analyze float_of_str (BodyArray reports)
  = let st := fold_left (aggregate_step float_of_str) reports tallies0 in
    let summary := (aggregate_location_patterns float_of_str reports).2 in
    Ok200
      {| total_reports := length reports;
         overall_risk :=
           overall_risk_from_reports (map (scored_of float_of_str) reports);
         payload_per_report := map (scored_of float_of_str) reports;
         location_summary := summary;
         high_risk_locations :=
           sorted_text
             (elements
                (list_to_set
                   (List.filter (fun kv => is_high_risk kv.2)
                                (map_to_list summary)).*1 : gset string)) |}.
Proof.
  unfold analyze.
  pose proof (aggregate_per_report float_of_str reports) as Hpr.
  destruct (aggregate_location_patterns float_of_str reports) as [prs summ].
  cbn [fst snd] in *. subst prs. rewrite length_map. reflexivity.
Qed.

Lemma high_risk_locations_elem (summary : gmap string LocationSummary) loc :
  loc ∈ sorted_text
          (elements
             (list_to_set
                (List.filter (fun kv => is_high_risk kv.2)
                             (map_to_list summary)).*1 : gset string))
  <-> exists s, summary !! loc = Some s /\ is_high_risk s = true.
Proof.
  rewrite sorted_text_perm, elem_of_elements, elem_of_list_to_set,
    list_elem_of_fmap.
  split.
  - intros ([loc' s] & -> & Hin). apply list_elem_of_In in Hin.
    apply List.filter_In in Hin as [Hin Hrisk].
    apply list_elem_of_In, elem_of_map_to_list in Hin. exists s. auto.
  - intros (s & Hlook & Hrisk). exists (loc, s). split; [reflexivity|].
    apply list_elem_of_In, List.filter_In. split; [|exact Hrisk].
    apply list_elem_of_In, elem_of_map_to_list, Hlook.
Qed.





(** For an array of reports the answer counts every report, scores them in
    order, and takes the verdict over all of them; the verdict is
    "No Data" exactly for the empty array. *)
Theorem analyze_counts_and_verdict (reports : list Report.t) (p : payload) :
  analyze float_of_str (BodyArray reports) = Ok200 p ->
  total_reports p = length reports /\
  payload_per_report p = map (scored_of float_of_str) reports /\
  overall_risk p
    = overall_risk_from_reports (map (scored_of float_of_str) reports) /\
  location_summary p = (aggregate_location_patterns float_of_str reports).2 /\
  (overall_risk p = "No Data" <-> reports = []).
Proof.
  rewrite analyze_array. cbv zeta. intros [= <-].
  cbn [total_reports payload_per_report overall_risk location_summary].
  split_and!; try reflexivity.
  destruct reports as [|r reports]; [split; reflexivity|].
  split; [|discriminate].
  rewrite overall_risk_nonempty by discriminate.
  generalize (map (scored_of float_of_str) (r :: reports)). intros prs.
  destruct (clears_threshold prs "High"), (clears_threshold prs "Medium");
    discriminate.
Qed.

(** A location is listed as high-risk exactly when its summary passes the
    test: two High reports or a severe top issue.  Every listed location is
    the location of some report. *)
Theorem high_risk_locations_iff (reports : list Report.t) (p : payload)
    (loc : string) :
  analyze float_of_str (BodyArray reports) = Ok200 p ->
  (loc ∈ high_risk_locations p <->
   exists s, location_summary p !! loc = Some s /\ is_high_risk s = true) /\
  (loc ∈ high_risk_locations p ->
   exists r, r ∈ reports /\ report_location r = loc).
Proof.
  rewrite analyze_array. cbv zeta. intros [= <-].
  cbn [high_risk_locations location_summary].
  split; [apply high_risk_locations_elem|].
  intros (s & Hlook & Hrisk)%high_risk_locations_elem.
  assert (is_Some ((aggregate_location_patterns float_of_str reports).2
                     !! loc)) as Hsome by (eexists; exact Hlook).
  apply summary_dom, locations_elem in Hsome as [[-> ->] | Hr]; [|exact Hr].
  exfalso.
  change (Some empty_summary = Some s) in Hlook.
  injection Hlook as <-. discriminate Hrisk.
Qed.

(** The high-risk locations are listed in strictly ascending order, so none
    is listed twice. *)
Theorem high_risk_locations_sorted (reports : list Report.t) (p : payload) :
  analyze float_of_str (BodyArray reports) = Ok200 p ->
  Sorted (fun a b => String.ltb a b = true) (high_risk_locations p) /\
  NoDup (high_risk_locations p).
Proof.
  rewrite analyze_array. cbv zeta. intros [= <-].
  cbn [high_risk_locations].
  assert (NoDup (sorted_text
            (elements
               (list_to_set
                  (List.filter (fun kv => is_high_risk kv.2)
                     (map_to_list
                        (aggregate_location_patterns float_of_str reports).2)).*1
                : gset string)))) as Hnd.
  { rewrite sorted_text_perm. apply NoDup_elements. }
  split; [|exact Hnd].
  apply Sorted_leb_NoDup_ltb; [apply sorted_text_sorted | exact Hnd].
Qed.

Lemma occurrences_pos_elem x (l : list string) :
  (0 < occurrences x l)%nat -> x ∈ l.
Proof.
  intros H. apply list_elem_of_In, (count_occ_In string_dec). exact H.
Qed.

(** A location with at least two High reports is listed as high-risk. *)
Theorem two_high_reports_flag_location (reports : list Report.t)
    (p : payload) (loc : string) :
  analyze float_of_str (BodyArray reports) = Ok200 p ->
  (2 <= occurrences "High" (risk_levels_at float_of_str loc reports))%nat ->
  loc ∈ high_risk_locations p.
Proof.
  rewrite analyze_array. cbv zeta. intros [= <-] Htwo.
  cbn [high_risk_locations]. apply high_risk_locations_elem.
  assert (loc ∈ locations (map (scored_of float_of_str) reports)) as Hloc.
  { apply locations_elem. right.
    assert ("High" ∈ risk_levels_at float_of_str loc reports) as Hin
      by (apply occurrences_pos_elem; lia).
    unfold risk_levels_at in Hin. apply list_elem_of_In, in_map_iff in Hin.
    destruct Hin as (r & _ & Hr). unfold reports_at in Hr.
    apply List.filter_In in Hr as [Hr Hl]. exists r.
    split; [apply list_elem_of_In, Hr | apply String.eqb_eq, Hl]. }
  eexists. split; [apply summary_lookup; split; [exact Hloc | reflexivity]|].
  unfold is_high_risk, summarize. cbn [risk_counts].
  destruct (aggregate_tallies_more float_of_str reports loc) as (-> & _).
  rewrite get_Counter_of.
  destruct (Nat.leb_spec 2
              (occurrences "High" (risk_levels_at float_of_str loc reports)));
    [reflexivity | lia].
Qed.

End HandlerFacts.


(** * The properties at the example reports *)

Lemma triggers_superset_b_sound l1 l2 :
  triggers_superset_b l1 l2 = true -> triggers_superset l1 l2.
Proof.
  unfold triggers_superset_b, triggers_superset. rewrite forallb_forall.
  intros H rl Hin%list_elem_of_In Hf. specialize (H rl Hin).
  rewrite Hf in H. exact H.
Qed.

(** The safe report, every measurement on its bound, scores nothing. *)
Lemma safe_report_scores_zero_example :
  let res := score_and_infer no_parse safe_report in
  score res = 0 /\ risk_level res = "Low" /\
  issues_found res = [] /\ likely_diseases res = [].
Proof.
  apply (safe_report_scores_zero no_parse safe_report).
  - left. reflexivity.
  - constructor; first [left; reflexivity | right; vm_compute; reflexivity].
Defined.

(** Scores 2, 3, 5 and 6 fall in Low, Medium, Medium and High. *)
Lemma risk_level_boundaries_example :
  risk_level (score_and_infer no_parse fever_report) = "Low" /\
  risk_level (score_and_infer no_parse diarrhea_report) = "Medium" /\
  risk_level (score_and_infer no_parse fever_diarrhea_report) = "Medium" /\
  risk_level (score_and_infer no_parse three_symptoms_report) = "High".
Proof.
  destruct (risk_level_from_score no_parse fever_report)
    as (_ & _ & _ & _ & H2 & _).
  destruct (risk_level_from_score no_parse diarrhea_report)
    as (_ & _ & _ & _ & _ & H3 & _).
  destruct (risk_level_from_score no_parse fever_diarrhea_report)
    as (_ & _ & H35 & _).
  destruct (risk_level_from_score no_parse three_symptoms_report)
    as (_ & H6 & _).
  split_and!.
  - apply H2. vm_compute. reflexivity.
  - apply H3. vm_compute. reflexivity.
  - apply H35. vm_compute. split; [discriminate | reflexivity].
  - apply H6. vm_compute. discriminate.
Defined.

(** A report that adds E. coli to a fever scores at least as much. *)
Lemma score_monotone_example :
  score (score_and_infer no_parse fever_report)
  <= score (score_and_infer no_parse diarrhea_ecoli_report).
Proof.
  apply (score_monotone no_parse fever_report diarrhea_ecoli_report).
  left. apply triggers_superset_b_sound. vm_compute. reflexivity.
Defined.

(** Turbidity 40 on a report with other findings: four points more. *)
Lemma turbidity_40_example :
  score (score_and_infer no_parse turbid_report)
  = score (score_and_infer no_parse (with_turbidity PNone turbid_report)) + 4.
Proof.
  destruct (turbidity_checks_exclusive no_parse turbid_report)
    as (_ & _ & _ & _ & _ & H40).
  apply H40. vm_compute. reflexivity.
Defined.

(** The coupling example of the specification. *)
Lemma diarrhea_with_ecoli_example :
  let diseases :=
    likely_diseases (score_and_infer no_parse diarrhea_ecoli_report) in
  occurrences "Cholera" diseases = 1%nat /\
  occurrences "Typhoid" diseases = 1%nat /\
  occurrences "Gastroenteritis" diseases = 1%nat /\
  occurrences "Diarrhea" diseases = 1%nat.
Proof.
  destruct (diarrhea_with_ecoli_diseases no_parse diarrhea_ecoli_report)
    as [H _]; [vm_compute; reflexivity ..|].
  split_and!; apply H; rewrite !elem_of_cons; auto 10.
Defined.

Example diarrhea_with_ecoli_result :
  score_and_infer no_parse diarrhea_ecoli_report
  = {| location := "A"; score := 10; risk_level := "High";
       issues_found := ["E. coli present"];
       likely_diseases := ["Diarrhea"; "Cholera"; "Typhoid"; "Gastroenteritis"] |}.
Proof. vm_compute. reflexivity. Qed.

(** Seven distinct issues at location "A", five in the summary. *)
Lemma summary_top_five_example :
  top_five_of (issue_stream no_parse "A" busy_reports)
    ["Unsafe pH"; "Fecal contamination (coliforms)"; "High turbidity";
     "E. coli present"; "High HPC"].
Proof.
  apply (summary_top_five no_parse busy_reports "A" busy_summary).
  vm_compute. reflexivity.
Defined.

Example busy_reports_distinct_issues :
  length (Counter_of (issue_stream no_parse "A" busy_reports)) = 7%nat.
Proof. vm_compute. reflexivity. Qed.

(** One High and one Medium report in three: both fractions clear 0.33 and
    the verdict is "High". *)
Lemma overall_risk_verdict_example :
  clears_threshold high_medium_low "Medium" = true /\
  overall_risk_from_reports high_medium_low = "High".
Proof.
  split; [vm_compute; reflexivity|].
  apply (overall_risk_verdict high_medium_low).
  - intros H. vm_compute in H. discriminate H.
  - vm_compute. reflexivity.
Defined.

(** C4 as the specification states it fails: the three reports are at High,
    Medium and Low and the verdict is not "Low". *)
Lemma overall_risk_high_medium_low_not_Low :
  risk_levels high_medium_low = ["High"; "Medium"; "Low"] /\
  length high_medium_low = 3%nat /\
  overall_risk_from_reports high_medium_low <> "Low".
Proof.
  split_and!; [vm_compute; reflexivity .. |].
  intros H. vm_compute in H. discriminate H.
Qed.

Lemma overall_risk_high_medium_low_example :
  overall_risk_from_reports high_medium_low = "High".
Proof.
  apply (overall_risk_high_medium_low high_medium_low).
  vm_compute. reflexivity.
Defined.

(** * The further properties at the example reports *)

Lemma severe_issue_never_low_example :
  3 <= score (score_and_infer no_parse busy_report) /\
  risk_level (score_and_infer no_parse busy_report) <> "Low".
Proof.
  apply (severe_issue_never_low no_parse busy_report "E. coli present").
  - unfold severe_flags. rewrite !elem_of_cons. auto.
  - apply list_elem_of_In. vm_compute. auto 10.
Defined.

Lemma symptoms_case_insensitive_example :
  score_and_infer no_parse
    (with_symptoms (Some "DIARRHEA and Fever") turbid_report)
  = score_and_infer no_parse
      (with_symptoms (Some "diarrhea and fever") turbid_report).
Proof.
  apply (symptoms_case_insensitive no_parse turbid_report). reflexivity.
Defined.

Lemma vomiting_keyword_redundant_example :
  contains "vomit" "vomiting since morning" = true /\
  (contains "vomit" "vomiting since morning"
   || contains "vomiting" "vomiting since morning"
   || contains "nausea" "vomiting since morning")%bool
  = (contains "vomit" "vomiting since morning"
     || contains "nausea" "vomiting since morning")%bool.
Proof.
  apply (vomiting_keyword_redundant "vomiting since morning"). reflexivity.
Defined.

Lemma nan_readings_example :
  let res := score_and_infer nan_parse nan_report in
  score res
    = total_points (triggered (read_locals nan_parse nan_report) symptom_table)
  /\ issues_found res = [] /\ likely_diseases res = [].
Proof.
  apply (nan_readings_trigger_nothing nan_parse nan_report).
  repeat split; vm_compute; reflexivity.
Defined.

Lemma score_monotone_in_readings_example :
  score (score_and_infer nan_parse clearer_nan_report)
  <= score (score_and_infer nan_parse busy_report).
Proof.
  apply (score_monotone_in_readings nan_parse clearer_nan_report busy_report).
  unfold readings_at_most, reading_at_most.
  split_and!; try (vm_compute; reflexivity);
    first [left; vm_compute; reflexivity | right; vm_compute; reflexivity].
Defined.

(** Against a NaN reading the order does not hold, and the score drops. *)
Example nan_against_forty :
  PrimFloat.ltb PrimFloat.nan 40 = false /\
  PrimFloat.leb 40 PrimFloat.nan = false /\
  score (score_and_infer nan_parse
           (with_turbidity (PInt 40) quiet_report)) = 4 /\
  score (score_and_infer nan_parse
           (with_turbidity (PStr "nan") quiet_report)) = 0.
Proof. split_and!; vm_compute; reflexivity. Qed.

Lemma risk_counts_tally_example :
  get (risk_counts busy_summary) "High"
  = occurrences "High" (risk_levels_at no_parse "A" busy_reports).
Proof.
  apply (risk_counts_tally no_parse busy_reports "A" busy_summary "High").
  vm_compute. reflexivity.
Defined.

Lemma symptom_trends_tally_example :
  get (symptom_trends busy_summary) "diarrhea"
  = if decide ("diarrhea" ∈ SYMPTOM_KEYS)
    then symptom_hits "diarrhea" "A" busy_reports else 0%nat.
Proof.
  apply (symptom_trends_tally no_parse busy_reports "A" busy_summary
           "diarrhea").
  vm_compute. reflexivity.
Defined.

Lemma single_report_top_five_example :
  top_issues
    {| symptom_trends := []; risk_counts := [("High", 1%nat)];
       top_issues := ["Unsafe pH"; "High turbidity"; "High HPC";
                      "High fluoride"; "High nitrate"];
       likely_diseases_top :=
         ["Metal leaching / gastritis / skin irritation";
          "Pathogens may survive; diarrhea risk"; "Opportunistic infections";
          "Dental/Skeletal fluorosis"; "Methemoglobinemia (Blue Baby)"] |}
  = take 5 (issues_found (score_and_infer no_parse lead_sixth_report)) /\
  likely_diseases_top
    {| symptom_trends := []; risk_counts := [("High", 1%nat)];
       top_issues := ["Unsafe pH"; "High turbidity"; "High HPC";
                      "High fluoride"; "High nitrate"];
       likely_diseases_top :=
         ["Metal leaching / gastritis / skin irritation";
          "Pathogens may survive; diarrhea risk"; "Opportunistic infections";
          "Dental/Skeletal fluorosis"; "Methemoglobinemia (Blue Baby)"] |}
  = take 5 (likely_diseases (score_and_infer no_parse lead_sixth_report)).
Proof.
  apply (single_report_top_five no_parse (busy_reports ++ [lead_sixth_report])
           "C" lead_sixth_report).
  - reflexivity.
  - vm_compute. reflexivity.
Defined.

Lemma verdict_of_uniform_reports_example :
  overall_risk_from_reports
    (map (scored_of no_parse) [diarrhea_report; fever_diarrhea_report])
  = "Medium".
Proof.
  apply verdict_of_uniform_reports.
  - discriminate.
  - rewrite !elem_of_cons. auto.
  - repeat constructor.
Defined.

Lemma verdict_low_example :
  overall_risk_from_reports
    (map (scored_of no_parse) [fever_report; quiet_report; safe_report])
  = "Low".
Proof.
  assert (risk_levels
            (map (scored_of no_parse) [fever_report; quiet_report; safe_report])
          = ["Low"; "Low"; "Low"]) as Hlevels by (vm_compute; reflexivity).
  apply verdict_low_without_high_or_medium.
  - discriminate.
  - rewrite Hlevels, !elem_of_cons, elem_of_nil.
    intros [H | [H | [H | []]]]; discriminate H.
  - rewrite Hlevels, !elem_of_cons, elem_of_nil.
    intros [H | [H | [H | []]]]; discriminate H.
Defined.

Lemma verdict_order_independent_example :
  overall_risk_from_reports high_medium_low
  = overall_risk_from_reports (rev high_medium_low).
Proof.
  apply verdict_order_independent. vm_compute.
  apply (Permutation_rev ["High"; "Medium"; "Low"]).
Defined.

Lemma analyze_counts_example :
  total_reports mixed_payload = length mixed_reports /\
  payload_per_report mixed_payload = map (scored_of no_parse) mixed_reports /\
  overall_risk mixed_payload
    = overall_risk_from_reports (map (scored_of no_parse) mixed_reports) /\
  location_summary mixed_payload
    = (aggregate_location_patterns no_parse mixed_reports).2 /\
  (overall_risk mixed_payload = "No Data" <-> mixed_reports = []).
Proof.
  apply (analyze_counts_and_verdict no_parse mixed_reports mixed_payload).
  vm_compute. reflexivity.
Defined.

Lemma high_risk_locations_iff_example :
  ("A" ∈ high_risk_locations mixed_payload <->
   exists s, location_summary mixed_payload !! "A" = Some s
             /\ is_high_risk s = true) /\
  ("A" ∈ high_risk_locations mixed_payload ->
   exists r, r ∈ mixed_reports /\ report_location r = "A").
Proof.
  apply (high_risk_locations_iff no_parse mixed_reports mixed_payload "A").
  vm_compute. reflexivity.
Defined.

Lemma high_risk_locations_sorted_example :
  Sorted (fun a b => String.ltb a b = true)
         (high_risk_locations mixed_payload) /\
  NoDup (high_risk_locations mixed_payload).
Proof.
  apply (high_risk_locations_sorted no_parse mixed_reports mixed_payload).
  vm_compute. reflexivity.
Defined.

Example mixed_high_risk_locations :
  high_risk_locations mixed_payload = ["0"; "A"; "Unknown"].
Proof. vm_compute. reflexivity. Qed.

Lemma two_high_reports_example :
  "Unknown" ∈ high_risk_locations mixed_payload.
Proof.
  apply (two_high_reports_flag_location no_parse mixed_reports mixed_payload
           "Unknown").
  - vm_compute. reflexivity.
  - vm_compute. lia.
Defined.
